(** * Solar battery charge forecast: energy-deficit forecast and charge control

    A shallow embedding of [addon/full_forecast_and_reccomendation.py] (and
    of the copy of the inverter routines in [addon/simple_battery_test.py]),
    with the properties of the design document stated over it.

    Conventions of the embedding
    - Python [int] is [Z]; Python [float] is idealised as an exact rational
      [Q] (no rounding error, no NaN/inf);
    - a naive [datetime] is the number of microseconds since the epoch, a
      [timedelta] a number of microseconds, a [date] a day ordinal;
    - a [dict] / pandas [Series] with unique keys is a [gmap];
    - a call that may raise is a value of [py]; module-level statements that
      touch the inverter and the state file thread a [world]. *)

From stdpp Require Import base option list gmap strings sorting.
From Stdlib Require Import Ascii ZArith QArith Qround Lia Lqa.

Local Open Scope Z_scope.

(** ** Python values and results *)

Module Py.

(** Exceptions the modelled code can raise. *)
Inductive exn :=
| KeyError
| ValueError
| AttributeError
| ConnectionException
| UnicodeDecodeError
| SystemExit (code : Z).

(** Outcome of a call: a value, or an exception on its way up. *)
Inductive py (A : Type) :=
| Return (a : A)
| Raise (e : exn).
Global Arguments Return {A} a.
Global Arguments Raise {A} e.

(** The JSON-representable values found in the state file. *)
Inductive pyval :=
| PyBool (b : bool)
| PyInt (z : Z)
| PyStr (s : string)
| PyNone.

(** Truth value of an object, as [if x:] tests it. *)
Definition truthy (v : pyval) : bool :=
  match v with
  | PyBool b => b
  | PyInt z => negb (z =? 0)
  | PyStr s => negb (String.eqb s "")
  | PyNone => false
  end.

(** [int(p / 10)] for an integer [p]: true division, then truncation toward
    zero (exact as long as [p / 10] is within float precision). *)
Definition int_div10 (p : Z) : Z := Z.quot p 10.

(** [round(x)] with one argument: nearest integer, ties to even. *)
Definition round (x : Q) : Z :=
  let f := Qfloor x in
  match Qcompare (x - inject_Z f) (1 # 2) with
  | Lt => f
  | Gt => f + 1
  | Eq => if Z.even f then f else f + 1
  end.

End Py.
Import Py.

(** ** The Modbus link to the inverter *)

Module Modbus.

(** What the device answers to one [write_register]. *)
Inductive reply :=
| Ack              (* normal response, the register is written *)
| ErrorResponse    (* [result.isError()] is true *)
| Exception.       (* the client raises *)

(** The behaviour of the link during one run. *)
Record bus := {
  connect_ok : bool;          (* result of [client.connect()] *)
  respond : Z -> Z -> reply   (* answer to a write of a value to a register *)
}.

(** Holding registers of the inverter and every write request put on the
    bus, oldest first. *)
Record inverter := {
  registers : gmap Z Z;
  traffic : list (Z * Z)
}.

(** State-and-exception monad of a Modbus session. *)
Definition session (A : Type) : Type := inverter -> py A * inverter.

Definition ret {A} (a : A) : session A := fun inv => (Return a, inv).

Definition bind {A B} (k : A -> session B) (m : session A) : session B :=
  fun inv =>
    match m inv with
    | (Return a, inv') => k a inv'
    | (Raise e, inv') => (Raise e, inv')
    end.

Global Instance session_ret : MRet session := @ret.
Global Instance session_bind : MBind session := @bind.

(** [try: m  except Exception: return a]. *)
Definition catch {A} (m : session A) (a : A) : session A :=
  fun inv =>
    match m inv with
    | (Return v, inv') => (Return v, inv')
    | (Raise _, inv') => (Return a, inv')
    end.

(** [client.write_register(reg, val)]; the result is [result.isError()]. *)
Definition write_register (b : bus) (reg val : Z) : session bool :=
  fun inv =>
    let sent := traffic inv ++ [(reg, val)] in
    match respond b reg val with
    | Ack => (Return false,
              {| registers := <[reg := val]> (registers inv); traffic := sent |})
    | ErrorResponse => (Return true,
              {| registers := registers inv; traffic := sent |})
    | Exception => (Raise ConnectionException,
              {| registers := registers inv; traffic := sent |})
    end.

End Modbus.
Import Modbus.

(** ** Inverter control *)

Module Inverter.

(** Value of register 40355 for a (clamped) charging power. *)
Definition value_40355 (charging_power : Z) : Z :=
  if charging_power <? 10 then 55536
  else
    let scaled_power := - int_div10 charging_power in
    65536 + scaled_power.

(** The maximum charge rate limit applied on entry. *)
Definition limit (MAX_BATTERY_CHARGE_RATE charging_power : Z) : Z :=
  if charging_power >? MAX_BATTERY_CHARGE_RATE
  then MAX_BATTERY_CHARGE_RATE else charging_power.

(** [force_charge_inverter(charging_power)]. There is no [except] clause:
    an exception of the client leaves the function. *)
Definition force_charge_inverter (MAX_BATTERY_CHARGE_RATE : Z) (b : bus)
    (charging_power : Z) : session bool :=
  let charging_power := limit MAX_BATTERY_CHARGE_RATE charging_power in
  if negb (connect_ok b) then ret false else
  result_1 ← write_register b 40348 2;
  if (result_1 : bool) then ret false else
  result_2 ← write_register b 40355 (value_40355 charging_power);
  if (result_2 : bool) then ret false else
  result_3 ← write_register b 40350 9900;
  if (result_3 : bool) then ret false else
  ret true.

(** [reset_inverter_settings()]; [except Exception] turns any exception
    into the result [False]. *)
Definition reset_inverter_settings (b : bus) : session bool :=
  catch
    (if negb (connect_ok b) then ret false else
     result_1 ← write_register b 40348 0;
     if (result_1 : bool) then ret false else
     result_2 ← write_register b 40355 10000;
     if (result_2 : bool) then ret false else
     result_3 ← write_register b 40350 500;
     if (result_3 : bool) then ret false else
     result_4 ← write_register b 40356 10000;
     if (result_4 : bool) then ret false else
     ret true)
    false.

End Inverter.

(** ** Wall-clock time *)

Module Clock.

Definition US_PER_SECOND : Z := 1000000.
Definition US_PER_DAY : Z := 86400 * US_PER_SECOND.

(** [timedelta(days=1)]. *)
Definition one_day : Z := US_PER_DAY.

(** The [datetime] at [hour:minute] on the day ordinal [day]. *)
Definition at_time (day hour minute : Z) : Z :=
  day * US_PER_DAY + (hour * 3600 + minute * 60) * US_PER_SECOND.

(** [d.total_seconds() / 3600] of a [timedelta]. *)
Definition hours (d : Z) : Q := (d # 1) / (US_PER_SECOND # 1) / 3600.

Definition digit (c : ascii) : option Z :=
  let n := Z.of_nat (nat_of_ascii c) in
  if (48 <=? n) && (n <=? 57) then Some (n - 48) else None.

(** One numeric field of [strptime]: one or two digits, at most [hi]. *)
Definition field (hi : Z) (cs : list ascii) : option Z :=
  match cs with
  | [a] => digit a
  | [a; b] =>
      x ← digit a; y ← digit b;
      if 10 * x + y <=? hi then Some (10 * x + y) else None
  | _ => None
  end.

Fixpoint split_colon (cs : list ascii) : option (list ascii * list ascii) :=
  match cs with
  | [] => None
  | c :: rest =>
      if Ascii.eqb c ":"%char then Some ([], rest)
      else '(h, m) ← split_colon rest; Some (c :: h, m)
  end.

(** White space as the blank of the format matches it (ASCII only). *)
Definition is_space (c : ascii) : bool :=
  let n := Z.of_nat (nat_of_ascii c) in
  ((9 <=? n) && (n <=? 13)) || ((28 <=? n) && (n <=? 32)).

Fixpoint lstrip (cs : list ascii) : list ascii :=
  match cs with
  | c :: rest => if is_space c then lstrip rest else cs
  | [] => []
  end.

(** The part of [datetime.strptime(f"{today} {s}", "%Y-%m-%d %H:%M")] that
    depends on [s]: after the blank, which takes any white space in front of
    [s], hour 0-23 and minute 0-59, each of one or two digits, separated by a
    colon and with nothing after; [None] stands for [ValueError]. White
    space and digits are the ASCII ones: for a string with other characters
    [None] says nothing about the code. *)
Definition strptime_HM (s : string) : option (Z * Z) :=
  '(h, m) ← split_colon (lstrip (String.list_ascii_of_string s));
  hour ← field 23 h; minute ← field 59 m;
  Some (hour, minute).

End Clock.
Import Clock.

(** ** Charge rate calculation *)

Module RateCalc.

(** [calculate_charge_rate(deficit_kwh, window_start, window_end, current_time)]. *)
Definition calculate_charge_rate (deficit_kwh : Q)
    (window_start window_end : string) (current_time : Z) : Z :=
  let today := current_time / US_PER_DAY in
  match strptime_HM window_start, strptime_HM window_end with
  | Some (sh, sm), Some (eh, em) =>
      let start_time := at_time today sh sm in
      let end_time := at_time today eh em in
      (* Adjust for next day if end time is earlier than start time *)
      let end_time := if end_time <? start_time then end_time + one_day else end_time in
      (* Adjust start time to next day if current time is past end time *)
      let '(start_time, end_time) :=
        if current_time >? end_time
        then (start_time + one_day, end_time + one_day)
        else (start_time, end_time) in
      (* If current time is before start time, use full window *)
      let '(start_time, charging_end) :=
        if current_time <? start_time
        then (start_time, end_time)
        else (current_time, end_time) in
      (* Calculate remaining hours (subtract 1 hour safety margin) *)
      let remaining_hours := (hours (charging_end - start_time) - 1)%Q in
      (* If less than 1 hour remaining, use remaining time without safety margin *)
      let remaining_hours :=
        if Qlt_le_dec remaining_hours 1
        then hours (charging_end - start_time) else remaining_hours in
      if Qle_bool remaining_hours 0 then 0
      else
        let required_watts := (deficit_kwh * 1000 / remaining_hours)%Q in
        Z.max (round required_watts) 0
  | _, _ => 0
  end.

End RateCalc.

(** ** Charging state store *)

Module Store.

(** A JSON document: an object, or anything else (array, scalar). *)
Inductive json :=
| JObject (d : gmap string pyval)
| JOther.

(** What is found at the path [STATE_FILE]. *)
Inductive file :=
| Absent                (* [os.path.exists] is false *)
| Unreadable            (* [open] or [read] raises [IOError] *)
| Undecodable           (* the bytes are not text: [read] raises [UnicodeDecodeError] *)
| Malformed             (* [json.load] raises [JSONDecodeError] *)
| Parsed (doc : json).

(** The data directory: the state file and whether it can be opened for
    writing. *)
Record disk := {
  STATE_FILE : file;
  writable : bool
}.

(** [load_charging_state()]. The handler names [json.JSONDecodeError] and
    [IOError] only: a [UnicodeDecodeError], like the [AttributeError] of a
    document that is no object, leaves the function. *)
Definition load_charging_state (d : disk) : py pyval :=
  match STATE_FILE d with
  | Absent => Return (PyBool false)
  | Unreadable => Return (PyBool false)
  | Undecodable => Raise UnicodeDecodeError
  | Malformed => Return (PyBool false)
  | Parsed (JObject state) =>
      Return (default (PyBool false) (state !! "currently_charging"))
  | Parsed JOther => Raise AttributeError
  end.

(** The record written by [save_charging_state]; [stamp] is
    [datetime.now().isoformat()]. *)
Definition state_record (charging : bool) (stamp : string) : gmap string pyval :=
  <["currently_charging" := PyBool charging]>
    (<["timestamp" := PyStr stamp]> ∅).

(** [save_charging_state(charging)]; an [IOError] is logged and swallowed. *)
Definition save_charging_state (stamp : string) (charging : bool) (d : disk) : disk :=
  if writable d
  then {| STATE_FILE := Parsed (JObject (state_record charging stamp));
          writable := writable d |}
  else d.

End Store.
Import Store.

(** ** Configuration from arguments *)

Record config := {
  battery_size_kwh : Q;
  minimum_soc_percent : Q;
  minimum_soc_by_sunset : Q;
  cheap_power_window_start : string;
  cheap_power_window_end : string;
  battery_charge_efficiency : Z;        (* percent, [type=int] *)
  max_battery_charge_rate : Z;
  HA_battery_charge_rate_sensor : string;
  HA_battery_SOC_sensor : string;
  HA_power_usage_sensor : string
}.

Definition BATTERY_CHARGE_EFFICIENCY (args : config) : Q :=
  (battery_charge_efficiency args # 1) / 100.

(** ** Deficit calculation *)

Module Deficit.

(** Result of [get_solar_forecast_advanced]: a dict with an ["error"] key,
    or the forecast with its ["total_solar_kwh"]. *)
Inductive solar_forecast_data :=
| SolarError (msg : string)
| SolarForecast (total_solar_kwh : Q).

Definition Qmax (a b : Q) : Q := if Qlt_le_dec a b then b else a.

(** The block under [# --- Deficit Calculation ---]: the new values of
    [total_deficit_kwh] and [charge_rate] (both initialised to 0), or
    [exit(1)]. [now] is the clock read by [calculate_charge_rate]. *)
Definition deficit_calculation (args : config) (solar : solar_forecast_data)
    (latest_soc : option Q) (predicted_power_need_kwh : Q) (now : Z)
    : py (Q * Z) :=
  match solar with
  | SolarError _ => Return (0%Q, 0)
  | SolarForecast total_solar_kwh =>
      if Qle_bool (BATTERY_CHARGE_EFFICIENCY args) 0 then Raise (SystemExit 1)
      else
        let current_soc_percent := default 0%Q latest_soc in
        let current_soc_kwh :=
          (current_soc_percent / 100 * battery_size_kwh args)%Q in
        let usable_soc_percent :=
          Qmax (current_soc_percent - minimum_soc_percent args) 0 in
        let usable_soc_kwh :=
          (usable_soc_percent / 100 * battery_size_kwh args)%Q in
        let sunset_target_kwh :=
          (minimum_soc_by_sunset args / 100 * battery_size_kwh args)%Q in
        let sunset_deficit_kwh := Qmax (sunset_target_kwh - current_soc_kwh) 0 in
        let total_deficit_kwh :=
          (predicted_power_need_kwh - (total_solar_kwh + usable_soc_kwh)
           + sunset_deficit_kwh)%Q in
        let total_deficit_kwh :=
          (total_deficit_kwh / BATTERY_CHARGE_EFFICIENCY args)%Q in
        let charge_rate :=
          if Qlt_le_dec 0 total_deficit_kwh
          then RateCalc.calculate_charge_rate total_deficit_kwh
                 (cheap_power_window_start args) (cheap_power_window_end args) now
          else 0 in
        Return (total_deficit_kwh, charge_rate)
  end.

End Deficit.

(** ** Decision logic and charge control *)

Module Control.

(** The inverter and the data directory, the two things a run can change. *)
Record world := {
  device : inverter;
  data : disk
}.

(** The block from [if total_deficit_kwh > 0:] down to the last
    [should_charge = False]: the new [charge_rate] and [should_charge].
    When a window time does not parse, [calculate_charge_rate] has returned
    0 for the same strings, so no branch of the window test sets
    [should_charge]. *)
Definition decision (args : config) (total_deficit_kwh : Q) (charge_rate : Z)
    (current_time : Z) : Z * bool :=
  if Qlt_le_dec 0 total_deficit_kwh then
    let charge_rate :=
      RateCalc.calculate_charge_rate total_deficit_kwh
        (cheap_power_window_start args) (cheap_power_window_end args)
        current_time in
    let today := current_time / US_PER_DAY in
    match strptime_HM (cheap_power_window_start args),
          strptime_HM (cheap_power_window_end args) with
    | Some (sh, sm), Some (eh, em) =>
        let start_time := at_time today sh sm in
        let end_time := at_time today eh em in
        (* Adjust for overnight window *)
        let end_time :=
          if end_time <? start_time then end_time + one_day else end_time in
        let '(start_time, end_time) :=
          if current_time >? end_time
          then (start_time + one_day, end_time + one_day)
          else (start_time, end_time) in
        (* Check if we're in the charging window and should charge *)
        if (start_time <=? current_time) && (current_time <=? end_time)
           && (charge_rate >? 0)
        then (charge_rate, true)
        else (charge_rate, false)
    | _, _ => (charge_rate, false)
    end
  else (charge_rate, false).

(** The block under [# Only write to modbus if state needs to change]:
    the final [currently_charging] and the world it leaves. *)
Definition charge_control (args : config) (b : bus) (stamp : string)
    (should_charge : bool) (charge_rate : Z) (currently_charging : pyval)
    (w : world) : py pyval * world :=
  if should_charge && negb (truthy currently_charging) then
    (* Start charging *)
    match Inverter.force_charge_inverter (max_battery_charge_rate args) b
            charge_rate (device w) with
    | (Return true, dev) =>
        (Return (PyBool true),
         {| device := dev; data := save_charging_state stamp true (data w) |})
    | (Return false, dev) =>
        (Return (PyBool false),
         {| device := dev; data := save_charging_state stamp false (data w) |})
    | (Raise e, dev) => (Raise e, {| device := dev; data := data w |})
    end
  else if negb should_charge && truthy currently_charging then
    (* Stop charging *)
    let '(_, dev) := Inverter.reset_inverter_settings b (device w) in
    (Return (PyBool false),
     {| device := dev; data := save_charging_state stamp false (data w) |})
  else
    (* already charging, or nothing to do *)
    (Return currently_charging, w).

(** From [currently_charging = load_charging_state()] to the end of the
    charge control block. *)
Definition decision_logic_and_charge_control (args : config) (b : bus)
    (current_time : Z) (stamp : string) (total_deficit_kwh : Q)
    (charge_rate : Z) (w : world) : py pyval * world :=
  match load_charging_state (data w) with
  | Raise e => (Raise e, w)
  | Return currently_charging =>
      let '(charge_rate, should_charge) :=
        decision args total_deficit_kwh charge_rate current_time in
      charge_control args b stamp should_charge charge_rate currently_charging w
  end.

End Control.
Import Control.

(** ** Telemetry aggregation *)

Module Aggregator.

Inductive sensor_type := power | energy | soc.

(** [get_sensor_type] on the two attributes it reads, the unit already
    lower-cased. *)
Definition get_sensor_type (unit device_class : string) : option sensor_type :=
  if String.eqb unit "w" || String.eqb device_class "power" then Some power
  else if String.eqb unit "wh" || String.eqb device_class "energy" then Some energy
  else if String.eqb unit "%" || String.eqb device_class "battery" then Some soc
  else None.

(** A row of the sensor data frame once [State] and [Time] are numeric and
    the [SensorType] column is filled in. *)
Record reading := {
  Entity : string;
  State : Q;
  Time : Z;
  SensorType : option sensor_type
}.

(** [group["Time"].dt.date]. *)
Definition Date (r : reading) : Z := Time r / US_PER_DAY.

(** Ascending order on the [Time] column. *)
Definition time_le (a b : reading) : Prop := Time a <= Time b.

Global Instance time_le_dec : RelDecision time_le.
Proof. intros a b. unfold time_le. apply _. Defined.

Global Instance time_le_trans : Transitive time_le.
Proof. intros a b c. unfold time_le. lia. Qed.

Global Instance time_le_total : Total time_le.
Proof. intros a b. unfold time_le. lia. Qed.

(** [group.sort_values("Time")]. *)
Definition sort_values (group : list reading) : list reading :=
  merge_sort time_le group.

(** [timedelta.total_seconds()]. *)
Definition total_seconds (d : Z) : Q := (d # 1) / (US_PER_SECOND # 1).

(** The [(Date, Energy_Wh)] columns of the rows that follow a row read at
    time [prev]: [Time_Diff] is the time since the previous row. *)
Fixpoint energy_rows_from (prev : Z) (group : list reading) : list (Z * Q) :=
  match group with
  | [] => []
  | r :: rest =>
      (Date r, (State r * total_seconds (Time r - prev) / 3600)%Q)
        :: energy_rows_from (Time r) rest
  end.

(** The [(Date, Energy_Wh)] columns of a sorted group: the first
    [Time_Diff] is NaN, filled with 0. *)
Definition energy_rows (group : list reading) : list (Z * Q) :=
  match group with
  | [] => []
  | r :: rest => (Date r, (State r * 0 / 3600)%Q) :: energy_rows_from (Time r) rest
  end.

(** The value of a date-indexed series at a date, 0 where it has none. *)
Definition at_date (s : gmap Z Q) (d : Z) : Q := default 0%Q (s !! d).

(** [rows.groupby("Date")[col].sum()]. *)
Definition groupby_sum (rows : list (Z * Q)) : gmap Z Q :=
  foldr (fun '(d, e) s => <[d := (e + at_date s d)%Q]> s) ∅ rows.

(** [daily_energy] of a power entity. *)
Definition daily_energy (group : list reading) : gmap Z Q :=
  groupby_sum (energy_rows (sort_values group)).

Definition Qmin (a b : Q) : Q := if Qlt_le_dec b a then b else a.
Definition Qmax (a b : Q) : Q := if Qlt_le_dec a b then b else a.

(** [soc_stats[date] = {"min": ..., "max": ...}] for the dates of a group. *)
Definition daily_min_max (group : list reading) : gmap Z (Q * Q) :=
  foldr (fun r s =>
           match s !! Date r with
           | Some (lo, hi) => <[Date r := (Qmin (State r) lo, Qmax (State r) hi)]> s
           | None => <[Date r := (State r, State r)]> s
           end) ∅ group.

(** The three accumulators of the aggregation loop. *)
Record aggregation := {
  results : gmap string (gmap Z Q);
  soc_stats : gmap Z (Q * Q);
  latest_soc : option Q
}.

Definition start : aggregation :=
  {| results := ∅; soc_stats := ∅; latest_soc := None |}.

(** The group's sensor type: that of its first row, unless the whole
    column is null. *)
Definition group_sensor_type (group : list reading) : option sensor_type :=
  match group with
  | [] => None
  | r :: _ => SensorType r
  end.

(** One iteration of [for entity, group in df.groupby("Entity")]. *)
Definition process_group (entity : string) (group : list reading)
    (acc : aggregation) : aggregation :=
  let group := sort_values group in
  match group_sensor_type group with
  | Some power =>
      {| results := <[entity := groupby_sum (energy_rows group)]> (results acc);
         soc_stats := soc_stats acc;
         latest_soc := latest_soc acc |}
  | Some soc =>
      {| results := results acc;
         soc_stats := daily_min_max group ∪ soc_stats acc;
         latest_soc := State <$> last group |}
  | _ => acc
  end.

(** The whole loop, over the groups in the order [groupby] yields them. *)
Definition aggregate (groups : list (string * list reading)) : aggregation :=
  foldl (fun acc '(entity, group) => process_group entity group acc) start groups.

End Aggregator.
Import Aggregator.

(** ** Least-squares regression on one feature *)

Module LinearRegression.

(** scikit-learn's [LinearRegression] is an external library; this is its
    documented behaviour for a single feature with an intercept: both
    columns are centred, the slope is the least-squares solution of minimum
    norm (0 when the feature is constant, in particular for one sample), and
    the intercept makes the line pass through the means. *)
Record model := {
  coef_ : Q;
  intercept_ : Q
}.

Definition Qsum (l : list Q) : Q := foldr Qplus 0%Q l.

Definition mean (l : list Q) : Q := (Qsum l / (Z.of_nat (length l) # 1))%Q.

(** [model.fit(X, y)] on at least one sample. *)
Definition fit (X y : list Q) : model :=
  let X_offset := mean X in
  let y_offset := mean y in
  let sxx := Qsum (map (fun x => (x - X_offset) * (x - X_offset))%Q X) in
  let sxy :=
    Qsum (zip_with (fun x v => (x - X_offset) * (v - y_offset))%Q X y) in
  let coef := if Qeq_bool sxx 0 then 0%Q else (sxy / sxx)%Q in
  {| coef_ := coef; intercept_ := (y_offset - coef * X_offset)%Q |}.

(** [model.predict([[x]])[0]]. *)
Definition predict (m : model) (x : Q) : Q := (coef_ m * x + intercept_ m)%Q.

End LinearRegression.

(** ** Forecast of the power need *)

Module Forecaster.

(** One entry of [forecast_data]. *)
Record forecast_row := {
  Date : Z;
  Battery_Charge : Q;
  Load_Consumed : Q;
  Battery_Min_SOC : Q;
  Battery_Max_SOC : Q;
  SOC_Delta : Q;
  SOC_Delta_kWh : Q;
  Power_Need : Q;
  DayOfWeek : Z
}.

(** [date.weekday()] of a day ordinal counted from 1970-01-01, a Thursday;
    Monday is 0. *)
Definition weekday (day : Z) : Z := (day + 3) mod 7.

(** [results.get(sensor, pd.Series())]. *)
Definition series (agg : aggregation) (sensor : string) : gmap Z Q :=
  default ∅ (results agg !! sensor).

(** The dates present in all three series, ascending. *)
Definition dates (args : config) (agg : aggregation) : list Z :=
  merge_sort Z.le
    (elements (dom (series agg (HA_battery_charge_rate_sensor args))
               ∩ dom (series agg (HA_power_usage_sensor args))
               ∩ dom (soc_stats agg))).

(** The body of [for date in dates:]; [date] is a key of [soc_stats] by the
    construction of [dates], so the look-up [soc_stats[date]] succeeds. *)
Definition row (args : config) (agg : aggregation) (date : Z) : forecast_row :=
  let battery_charge := at_date (series agg (HA_battery_charge_rate_sensor args)) date in
  let load_consumed := at_date (series agg (HA_power_usage_sensor args)) date in
  let '(min_soc, max_soc) := default (0%Q, 0%Q) (soc_stats agg !! date) in
  let soc_delta_percent := (max_soc - min_soc)%Q in
  let soc_delta_kwh := (soc_delta_percent / 100 * battery_size_kwh args)%Q in
  {| Date := date;
     Battery_Charge := battery_charge;
     Load_Consumed := load_consumed;
     Battery_Min_SOC := min_soc;
     Battery_Max_SOC := max_soc;
     SOC_Delta := soc_delta_percent;
     SOC_Delta_kWh := soc_delta_kwh;
     Power_Need := (load_consumed - battery_charge + soc_delta_kwh * 1000)%Q;
     DayOfWeek := weekday date |}.

Definition forecast_data (args : config) (agg : aggregation) : list forecast_row :=
  map (row args agg) (dates args agg).

(** The block under [# --- Forecast Power Need ---] on a data frame built
    from [rows]: [predicted_power_need_kwh]. An empty frame has no
    ["DayOfWeek"] column, and selecting it raises [KeyError]. *)
Definition predict_power_need (rows : list forecast_row) : py Q :=
  match rows with
  | [] => Raise KeyError
  | first :: others =>
      let X := map (fun r => (DayOfWeek r # 1)) rows in
      let y := map Power_Need rows in
      let model := LinearRegression.fit X y in
      let next_day := foldr Z.max (Date first) (map Date others) + 1 in
      let predicted_power_need_wh :=
        LinearRegression.predict model (weekday next_day # 1) in
      Return (predicted_power_need_wh / 1000)%Q
  end.

End Forecaster.

(** ** One run *)

Module Script.

(** What the run reads from outside: the grouped sensor history, the solar
    forecast, the link to the inverter, the clock at the two calls of
    [calculate_charge_rate] and the time stamp of a state save. *)
Record inputs := {
  groups : list (string * list reading);
  solar : Deficit.solar_forecast_data;
  link : bus;
  now_deficit : Z;
  now_decision : Z;
  stamp : string
}.

(** The run from the aggregation loop to the end of charge control: the
    final [currently_charging] and the world, or the exception that ended
    the run and the world at that point. *)
Definition run (args : config) (i : inputs) (w : world) : py pyval * world :=
  let agg := aggregate (groups i) in
  match Forecaster.predict_power_need (Forecaster.forecast_data args agg) with
  | Raise e => (Raise e, w)
  | Return predicted_power_need_kwh =>
      match Deficit.deficit_calculation args (solar i) (latest_soc agg)
              predicted_power_need_kwh (now_deficit i) with
      | Raise e => (Raise e, w)
      | Return (total_deficit_kwh, charge_rate) =>
          decision_logic_and_charge_control args (link i) (now_decision i)
            (stamp i) total_deficit_kwh charge_rate w
      end
  end.

End Script.

(** ** Reading the inverter's status *)

Module Status.

(** What the device answers to one [read_holding_registers]. *)
Inductive read_reply :=
| Registers       (* normal response carrying the register *)
| ReadError       (* [result.isError()] is true *)
| ReadException.  (* the client raises *)

(** The content of a holding register; a register the model holds no value
    for reads as 0. *)
Definition content (inv : inverter) (address : Z) : Z :=
  default 0 (registers inv !! address).

(** [read_battery_status()] of the forecast script: the pair
    [(control_mode, charge_rate)]. Any exception gives [(None, None)]. *)
Definition read_battery_status (b : bus) (answer : Z -> read_reply)
    (inv : inverter) : option Z * option Z :=
  if negb (connect_ok b) then (None, None) else
  match answer 40347 with
  | Registers =>
      match answer 40355 with
      | Registers => (Some (content inv 40347), Some (content inv 40355))
      | ReadError => (Some (content inv 40347), None)
      | ReadException => (None, None)
      end
  | ReadError => (None, None)
  | ReadException => (None, None)
  end.

End Status.
Import Status.

(** ** The battery test tool *)

Module BatteryTest.

(** One guarded read of [simple_battery_test.read_battery_status]: the
    register, or nothing when the response is an error or the client
    raises. *)
Definition try_read (answer : Z -> read_reply) (inv : inverter) (address : Z)
    : option Z :=
  match answer address with
  | Registers => Some (content inv address)
  | _ => None
  end.

(** [read_battery_status()] of the test tool: the INT+SF registers first,
    then the FLOAT model registers where the first reading is missing or
    fails the sanity check. *)
Definition read_battery_status (b : bus) (answer : Z -> read_reply)
    (inv : inverter) : option Z * option Z :=
  if negb (connect_ok b) then (None, None) else
  let control_mode := try_read answer inv 40347 in
  let charge_rate := try_read answer inv 40355 in
  let control_mode :=
    if match control_mode with None => true | Some m => m >? 10 end
    then match try_read answer inv 40357 with
         | Some m => Some m
         | None => control_mode
         end
    else control_mode in
  let charge_rate :=
    if match charge_rate with None => true | Some r => r >? 50000 end
    then match try_read answer inv 40365 with
         | Some r => Some r
         | None => charge_rate
         end
    else charge_rate in
  match control_mode with
  | None => (None, None)
  | Some m => (Some m, charge_rate)
  end.

Inductive action := start | stop | status.

(** [mode in [2, 100]]. *)
Definition force_charge_mode (mode : option Z) : bool :=
  match mode with
  | Some m => (m =? 2) || (m =? 100)
  | None => false
  end.

(** [mode in [0, 1] or (mode == 100 and rate == 10000)]. *)
Definition automatic_mode (mode rate : option Z) : bool :=
  match mode with
  | Some m =>
      (m =? 0) || (m =? 1)
      || ((m =? 100) && match rate with Some r => r =? 10000 | None => false end)
  | None => false
  end.

(** [main()] for a valid action and a configured host: the value it
    returns, of which the exit status is the negation. The MQTT status
    messages are left out. *)
Definition main (max_charge_rate : Z) (b : bus) (answer : Z -> read_reply)
    (a : action) : session bool :=
  fun inv =>
    match a with
    | start =>
        match read_battery_status b answer inv with
        | (None, _) => (Return false, inv)
        | (mode, rate) =>
            if force_charge_mode mode then (Return true, inv)
            else
              let test_charge_rate := max_charge_rate / 2 in
              match Inverter.force_charge_inverter max_charge_rate b
                      test_charge_rate inv with
              | (Return true, inv') =>
                  let '(verify_mode, verify_rate) :=
                    read_battery_status b answer inv' in
                  (Return (force_charge_mode verify_mode), inv')
              | (Return false, inv') => (Return false, inv')
              | (Raise e, inv') => (Raise e, inv')
              end
        end
    | stop =>
        match read_battery_status b answer inv with
        | (None, _) => (Return false, inv)
        | (mode, rate) =>
            if automatic_mode mode rate then (Return true, inv)
            else
              match Inverter.reset_inverter_settings b inv with
              | (Return true, inv') =>
                  let '(verify_mode, verify_rate) :=
                    read_battery_status b answer inv' in
                  (Return (automatic_mode verify_mode verify_rate), inv')
              | (Return false, inv') => (Return false, inv')
              | (Raise e, inv') => (Raise e, inv')
              end
        end
    | status =>
        match read_battery_status b answer inv with
        | (None, _) => (Return false, inv)
        | (Some _, _) => (Return true, inv)
        end
    end.

End BatteryTest.

(** ** Solar forecast *)

Module Solar.

(** [sum(x) / len(x) if x else 0]. *)
Definition average (x : list Q) : Q :=
  match x with
  | [] => 0%Q
  | _ => (LinearRegression.Qsum x / (Z.of_nat (length x) # 1))%Q
  end.

(** [0.7 if avg_cloud_cover > 80 else 1.0]. *)
Definition derating_factor (cloud_cover : list Q) : Q :=
  if Qlt_le_dec 80 (average cloud_cover) then (7 # 10)%Q else 1%Q.

(** [sum((sw / 1000) * system_size_kw for sw in shortwave) * derating_factor]. *)
Definition total_solar_kwh (system_size_kw : Q) (shortwave cloud_cover : list Q) : Q :=
  (LinearRegression.Qsum (map (fun sw => sw / 1000 * system_size_kw)%Q shortwave)
   * derating_factor cloud_cover)%Q.

(** The ["forecast"] entry written to the cache and returned. *)
Record forecast := {
  f_total_solar_kwh : Q;
  f_avg_cloud_cover : Q;
  f_avg_dni : Q;
  f_avg_diffuse : Q;
  f_shortwave : list Q;
  f_cloud_cover : list Q;
  f_direct_normal : list Q;
  f_diffuse : list Q
}.

(** The ["timestamp"] entry of a cache file: missing or empty, not in ISO
    format, or a time. *)
Inductive cached_timestamp :=
| NoTimestamp
| BadTimestamp
| Timestamp (t : Z).

(** The cache file: not there, not JSON, or a JSON object with what it
    holds under ["timestamp"] and ["forecast"]. *)
Inductive cache_file :=
| NoCache
| NotJson
| Cached (timestamp : cached_timestamp) (entry : option forecast).

(** The answer of the weather service: the request fails, the document has
    no ["hourly"] part, or the hourly series. *)
Inductive response :=
| RequestFailed (e : string)
| NoHourly
| Hourly (shortwave cloud_cover direct_normal diffuse : list Q).

(** What [get_solar_forecast_advanced] returns: a dict with ["error"], a
    forecast, or the empty dict of a cache file without a ["forecast"]. *)
Inductive result :=
| Error (msg : string)
| Forecast (f : forecast)
| EmptyDict.

(** The fetch half of [get_solar_forecast_advanced]: on success the cache
    file is rewritten with the time [written_at]. *)
Definition fetch (system_size_kw : Q) (r : response) (written_at : Z)
    (c : cache_file) : result * cache_file :=
  match r with
  | RequestFailed e => (Error ("Failed to fetch data: " +:+ e), c)
  | NoHourly => (Error "No valid data received from API.", c)
  | Hourly shortwave cloud_cover direct_normal diffuse =>
      let f := {|
        f_total_solar_kwh := total_solar_kwh system_size_kw shortwave cloud_cover;
        f_avg_cloud_cover := average cloud_cover;
        f_avg_dni := average direct_normal;
        f_avg_diffuse := average diffuse;
        f_shortwave := shortwave;
        f_cloud_cover := cloud_cover;
        f_direct_normal := direct_normal;
        f_diffuse := diffuse |} in
      (Forecast f, Cached (Timestamp written_at) (Some f))
  end.

(** [get_solar_forecast_advanced]: [now] is the clock of the freshness
    test, [r] what the weather service would answer. A cache file that
    cannot be decoded is removed when the directory allows it. *)
Definition get_solar_forecast_advanced (system_size_kw : Q) (use_cache : bool)
    (cache_duration_minutes : Z) (now : Z) (r : response) (written_at : Z)
    (removable : bool) (c : cache_file) : result * cache_file :=
  if use_cache then
    match c with
    | NoCache => fetch system_size_kw r written_at c
    | NotJson => fetch system_size_kw r written_at (if removable then NoCache else c)
    | Cached NoTimestamp _ => fetch system_size_kw r written_at c
    | Cached BadTimestamp _ =>
        fetch system_size_kw r written_at (if removable then NoCache else c)
    | Cached (Timestamp cache_time) entry =>
        if now - cache_time <? cache_duration_minutes * 60 * US_PER_SECOND
        then (match entry with Some f => Forecast f | None => EmptyDict end, c)
        else fetch system_size_kw r written_at c
    end
  else fetch system_size_kw r written_at c.

End Solar.

(** ** Cache of the sensor history *)

Module HACache.

(** The pickle file: not there, cut short or otherwise not unpicklable,
    unusable for another reason, or a dict with what it holds under
    ['timestamp'] and ['data']. *)
Inductive cache_file (A : Type) :=
| NoFile
| Corrupt
| Unusable
| Pickled (timestamp : option Z) (data : option A).
Global Arguments NoFile {A}.
Global Arguments Corrupt {A}.
Global Arguments Unusable {A}.
Global Arguments Pickled {A} timestamp data.

(** [HA_CACHE_DURATION = timedelta(hours=12)]. *)
Definition HA_CACHE_DURATION : Z := 12 * 3600 * US_PER_SECOND.

(** [get_cached_ha_data()]: the cached data or [None], and the file it
    leaves; a corrupt file is removed when the directory allows it. *)
Definition get_cached_ha_data {A} (now : Z) (removable : bool)
    (f : cache_file A) : option A * cache_file A :=
  match f with
  | NoFile => (None, f)
  | Corrupt => (None, if removable then NoFile else f)
  | Unusable => (None, f)
  | Pickled (Some cache_time) data =>
      if now - cache_time <? HA_CACHE_DURATION then (data, f) else (None, f)
  | Pickled None _ => (None, f)
  end.

(** How the write of [save_ha_data_cache] goes: through, not at all ([open]
    raises), or wrong once [open(..., 'wb')] has emptied the file. *)
Inductive write_outcome :=
| Written
| OpenFails
| FailsAfterOpen.

(** [save_ha_data_cache(data)]; every exception is logged and swallowed. A
    file emptied or cut short by a failed write no longer unpickles. *)
Definition save_ha_data_cache {A} (now : Z) (outcome : write_outcome) (data : A)
    (f : cache_file A) : cache_file A :=
  match outcome with
  | Written => Pickled (Some now) (Some data)
  | OpenFails => f
  | FailsAfterOpen => Corrupt
  end.

End HACache.

(** ** MQTT discovery *)

Module Discovery.

(** The outcome of one [mqtt_client.publish]. *)
Inductive publish_result :=
| Rc (code : Z)
| PublishException.

(** One entry of [sensors]: its unique id and whether it has a
    ['payload_on'] key. *)
Record sensor := {
  unique_id : string;
  binary : bool
}.

Definition sensors : list sensor := [
  {| unique_id := "solar_forecast_required_charge_rate"; binary := false |};
  {| unique_id := "solar_forecast_battery_soc"; binary := false |};
  {| unique_id := "solar_forecast_total_deficit"; binary := false |};
  {| unique_id := "solar_forecast_predicted_power_need"; binary := false |};
  {| unique_id := "solar_forecast_battery_will_charge_overnight"; binary := true |};
  {| unique_id := "solar_forecast_currently_charging"; binary := true |};
  {| unique_id := "solar_forecast_solar_kwh"; binary := false |};
  {| unique_id := "solar_forecast_sunset_time"; binary := false |};
  {| unique_id := "solar_forecast_sunrise_time"; binary := false |};
  {| unique_id := "solar_forecast_sun_state"; binary := false |}
].

Definition discovery_topic (s : sensor) : string :=
  if binary s
  then "homeassistant/binary_sensor/" +:+ unique_id s +:+ "/config"
  else "homeassistant/sensor/" +:+ unique_id s +:+ "/config".

(** The loop of [publish_mqtt_discovery] over a list of sensors: the
    success count and the topics published to, in order. *)
Fixpoint publish_all (broker : string -> publish_result) (l : list sensor)
    : nat * list string :=
  match l with
  | [] => (0%nat, [])
  | s :: rest =>
      let '(success_count, topics) := publish_all broker rest in
      match broker (discovery_topic s) with
      | Rc 0 => (S success_count, discovery_topic s :: topics)
      | _ => (success_count, discovery_topic s :: topics)
      end
  end.

(** [publish_mqtt_discovery(mqtt_client)] for a client that is there. *)
Definition publish_mqtt_discovery (broker : string -> publish_result) : bool :=
  Nat.eqb (fst (publish_all broker sensors)) (length sensors).

(** The retry loop of [main()] from attempt number [attempt] on, with
    [remaining] attempts left: the exit status, the number of connection
    attempts made and the number of pauses taken. [connect k] is the
    client [setup_mqtt_client] returns at attempt [k], if any. *)
Fixpoint retry (connect : nat -> option (string -> publish_result))
    (attempt remaining : nat) : Z * nat * nat :=
  match remaining with
  | O => (1, 0%nat, 0%nat)
  | S remaining' =>
      let success :=
        match connect attempt with
        | Some broker => publish_mqtt_discovery broker
        | None => false
        end in
      if success then (0, 1%nat, 0%nat)
      else
        let '(code, attempts, pauses) := retry connect (S attempt) remaining' in
        (code, S attempts, match remaining' with O => pauses | S _ => S pauses end)
  end.

(** [main()]: [range(retry_attempts)] is empty for a count below 1. *)
Definition main (retry_attempts : Z)
    (connect : nat -> option (string -> publish_result)) : Z * nat * nat :=
  retry connect 0 (Z.to_nat retry_attempts).

End Discovery.

(** * Reference definitions and sample inputs *)

(** The write sequence of the forced-charge transition for a power [p]. *)
Definition force_charge_commands (p : Z) : list (Z * Z) :=
  [(40348, 2); (40355, Inverter.value_40355 p); (40350, 9900)].

(** A link on which everything succeeds, one that cannot be opened, and an
    inverter with no register written yet. *)
Definition healthy : bus := {| connect_ok := true; respond := fun _ _ => Ack |}.
Definition unreachable : bus := {| connect_ok := false; respond := fun _ _ => Ack |}.
Definition idle : inverter := {| registers := ∅; traffic := [] |}.

(** The deficit as the design document words it, all in kWh:
    predicted need, less solar forecast and usable charge above the minimum,
    plus the shortfall to the sunset target, divided by the efficiency. *)
Definition deficit_formula (predicted_power_need_kwh total_solar_kwh
    current_soc_pct minimum_soc_pct minimum_soc_by_sunset_pct
    battery_capacity_kWh efficiency : Q) : Q :=
  let usable_soc_kwh :=
    (Deficit.Qmax (current_soc_pct - minimum_soc_pct) 0 / 100 * battery_capacity_kWh)%Q in
  let sunset_target_kwh := (minimum_soc_by_sunset_pct / 100 * battery_capacity_kWh)%Q in
  let current_soc_kwh := (current_soc_pct / 100 * battery_capacity_kWh)%Q in
  ((predicted_power_need_kwh - (total_solar_kwh + usable_soc_kwh)
    + Deficit.Qmax (sunset_target_kwh - current_soc_kwh) 0) / efficiency)%Q.

(** A configuration with the defaults of the argument parser and a 10 kWh
    battery behind a 5 kW array. *)
Definition sample_args : config := {|
  battery_size_kwh := 10;
  minimum_soc_percent := 10;
  minimum_soc_by_sunset := 50;
  cheap_power_window_start := "23:00";
  cheap_power_window_end := "06:00";
  battery_charge_efficiency := 95;
  max_battery_charge_rate := 5000;
  HA_battery_charge_rate_sensor := "sensor.solarnet_power_battery_charge";
  HA_battery_SOC_sensor := "sensor.byd_battery_box_premium_hv_state_of_charge";
  HA_power_usage_sensor := "sensor.solarnet_power_load_consumed"
|}.

(** 2024-01-15, a Monday, as a day ordinal. *)
Definition d20240115 : Z := 19737.

(** The sample configuration with an efficiency argument of 0 percent. *)
Definition lossy_args : config := {|
  battery_size_kwh := 10;
  minimum_soc_percent := 10;
  minimum_soc_by_sunset := 50;
  cheap_power_window_start := "23:00";
  cheap_power_window_end := "06:00";
  battery_charge_efficiency := 0;
  max_battery_charge_rate := 5000;
  HA_battery_charge_rate_sensor := "sensor.solarnet_power_battery_charge";
  HA_battery_SOC_sensor := "sensor.byd_battery_box_premium_hv_state_of_charge";
  HA_power_usage_sensor := "sensor.solarnet_power_load_consumed"
|}.

(** A data directory whose state file records "not charging" since the
    morning before, and one with no state file yet. *)
Definition stopped_yesterday : disk := {|
  STATE_FILE := Parsed (JObject (state_record false "2024-01-14T06:05:00.000000"));
  writable := true
|}.
Definition fresh_disk : disk := {| STATE_FILE := Absent; writable := true |}.

(** A data directory whose state file records "charging". *)
Definition charging_since_2310 : disk := {|
  STATE_FILE := Parsed (JObject (state_record true "2024-01-15T23:10:00.000000"));
  writable := true
|}.

(** Worlds in which the inverter has not been written to. *)
Definition stopped_world : world := {| device := idle; data := stopped_yesterday |}.
Definition charging_world : world := {| device := idle; data := charging_since_2310 |}.
Definition fresh_world : world := {| device := idle; data := fresh_disk |}.

(** A run at 23:30 with a deficit of 3 kWh, the state file saying "not
    charging" and the inverter unreachable. *)
Definition failed_start : py pyval * world :=
  decision_logic_and_charge_control sample_args unreachable
    (at_time d20240115 23 30) "2024-01-15T23:30:00.000000" 3 0 stopped_world.

(** A run at 07:00 the next morning with no deficit, the state file saying
    "charging" and the inverter unreachable. *)
Definition failed_stop : py pyval * world :=
  decision_logic_and_charge_control sample_args unreachable
    (at_time d20240115 7 0) "2024-01-16T07:00:00.000000" 0 0 charging_world.

(** The time stamp recorded in a state file, if it holds a record. *)
Definition file_timestamp (f : file) : option pyval :=
  match f with
  | Parsed (JObject o) => o !! "timestamp"
  | _ => None
  end.

(** Two runs half an hour apart on a working link: at 23:10 with a deficit
    of 3 kWh and no state file, then at 23:40 with a deficit of 12 kWh. *)
Definition first_run : py pyval * world :=
  decision_logic_and_charge_control sample_args healthy
    (at_time d20240115 23 10) "2024-01-15T23:10:00.000000" 3 0 fresh_world.
Definition second_run : py pyval * world :=
  decision_logic_and_charge_control sample_args healthy
    (at_time d20240115 23 40) "2024-01-15T23:40:00.000000" 12 0 (snd first_run).

(** The energy rows as the data model of the design document words them:
    the first reading of each date contributes zero, every other reading its
    value over the time since the reading before it. *)
Fixpoint within_day_rows_from (prev : reading) (group : list reading)
    : list (Z * Q) :=
  match group with
  | [] => []
  | r :: rest =>
      (Aggregator.Date r,
       if Aggregator.Date r =? Aggregator.Date prev
       then (State r * total_seconds (Time r - Time prev) / 3600)%Q
       else 0%Q)
        :: within_day_rows_from r rest
  end.

Definition within_day_rows (group : list reading) : list (Z * Q) :=
  match group with
  | [] => []
  | r :: rest => (Aggregator.Date r, 0%Q) :: within_day_rows_from r rest
  end.

Definition within_day_energy (group : list reading) : gmap Z Q :=
  groupby_sum (within_day_rows (sort_values group)).

(** A load of 1000 W read at 23:00 and again at 01:00 the next morning. *)
Definition late_reading : reading := {|
  Entity := "sensor.solarnet_power_load_consumed";
  State := 1000;
  Time := at_time d20240115 23 0;
  SensorType := Some power
|}.
Definition early_reading : reading := {|
  Entity := "sensor.solarnet_power_load_consumed";
  State := 1000;
  Time := at_time (d20240115 + 1) 1 0;
  SensorType := Some power
|}.
Definition overnight_gap : list reading := [early_reading; late_reading].

(** One afternoon of history, 2024-01-14: the battery charging at 500 W,
    the house drawing 10000 W and the SOC rising from 40 to 60 percent. All
    three series have that single date. *)
Definition sensor_row (entity : string) (kind : sensor_type) (hour : Z)
    (value : Q) : reading := {|
  Entity := entity;
  State := value;
  Time := at_time (d20240115 - 1) hour 0;
  SensorType := Some kind
|}.

Definition one_day_history : list (string * list reading) :=
  let charge := HA_battery_charge_rate_sensor sample_args in
  let level := HA_battery_SOC_sensor sample_args in
  let load := HA_power_usage_sensor sample_args in
  [ (level, [sensor_row level soc 12 40; sensor_row level soc 14 60]);
    (charge, [sensor_row charge power 12 500; sensor_row charge power 13 500]);
    (load, [sensor_row load power 12 10000; sensor_row load power 14 10000]) ].

(** A run at 23:30 on 2024-01-15 over that history, with 1 kWh of sun
    forecast and a working link. *)
Definition one_day_inputs : Script.inputs := {|
  Script.groups := one_day_history;
  Script.solar := Deficit.SolarForecast 1;
  Script.link := healthy;
  Script.now_deficit := at_time d20240115 23 30;
  Script.now_decision := at_time d20240115 23 30;
  Script.stamp := "2024-01-15T23:30:00.000000"
|}.

(** The same run with no history at all. *)
Definition no_history_inputs : Script.inputs := {|
  Script.groups := [];
  Script.solar := Deficit.SolarForecast 1;
  Script.link := healthy;
  Script.now_deficit := at_time d20240115 23 30;
  Script.now_decision := at_time d20240115 23 30;
  Script.stamp := "2024-01-15T23:30:00.000000"
|}.

(** A link on which the write of the charge power is answered by an error
    response. *)
Definition power_write_fails : bus := {|
  connect_ok := true;
  respond := fun reg _ => if reg =? 40355 then ErrorResponse else Ack
|}.

(** The registers after a reset that went through. *)
Definition factory_defaults (regs : gmap Z Z) : gmap Z Z :=
  <[40356 := 10000]> (<[40350 := 500]> (<[40355 := 10000]> (<[40348 := 0]> regs))).

(** A link on which every read is answered, and an inverter showing 100
    at address 40347 and 1 at address 40357. *)
Definition readable : Z -> read_reply := fun _ => Registers.
Definition showing_100 : inverter := {|
  registers := <[40347 := 100]> (<[40357 := 1]> ∅);
  traffic := []
|}.

(** An inverter showing mode 1 at address 40347. *)
Definition showing_1 : inverter := {|
  registers := <[40347 := 1]> ∅;
  traffic := []
|}.

(** An inverter showing mode 2 at address 40347. *)
Definition showing_2 : inverter := {|
  registers := <[40347 := 2]> ∅;
  traffic := []
|}.

(** A link on which the write of the charge power makes the client raise. *)
Definition power_write_raises : bus := {|
  connect_ok := true;
  respond := fun reg _ => if reg =? 40355 then Exception else Ack
|}.

(** The run over one afternoon of history with the weather service down. *)
Definition no_forecast_inputs : Script.inputs := {|
  Script.groups := one_day_history;
  Script.solar := Deficit.SolarError "Failed to fetch data: timeout";
  Script.link := healthy;
  Script.now_deficit := at_time d20240115 23 30;
  Script.now_decision := at_time d20240115 23 30;
  Script.stamp := "2024-01-15T23:30:00.000000"
|}.

(** The sample configuration with a start time that is not a time. *)
Definition bad_window_args : config := {|
  battery_size_kwh := 10;
  minimum_soc_percent := 10;
  minimum_soc_by_sunset := 50;
  cheap_power_window_start := "25:00";
  cheap_power_window_end := "06:00";
  battery_charge_efficiency := 95;
  max_battery_charge_rate := 5000;
  HA_battery_charge_rate_sensor := "sensor.solarnet_power_battery_charge";
  HA_battery_SOC_sensor := "sensor.byd_battery_box_premium_hv_state_of_charge";
  HA_power_usage_sensor := "sensor.solarnet_power_load_consumed"
|}.

(** The SOC readings of the sample history, as they arrive. *)
Definition soc_readings : list reading :=
  let level := HA_battery_SOC_sensor sample_args in
  [sensor_row level soc 14 60; sensor_row level soc 12 40].

(** Whether one attempt of the discovery tool connects and publishes every
    sensor. *)
Definition attempt_succeeds (c : option (string -> Discovery.publish_result)) : bool :=
  match c with
  | Some broker => Discovery.publish_mqtt_discovery broker
  | None => false
  end.

(** A broker that accepts everything, and a start-up in which the broker is
    reachable from the third attempt on. *)
Definition accepting : string -> Discovery.publish_result := fun _ => Discovery.Rc 0.
Definition up_at_third : nat -> option (string -> Discovery.publish_result) :=
  fun k => if (k <? 2)%nat then None else Some accepting.

(** A string of ASCII characters only; on such strings [strptime_HM]
    accepts exactly what the format of the code accepts. *)
Definition ascii_only (s : string) : bool :=
  forallb (fun c => (nat_of_ascii c <? 128)%nat) (String.list_ascii_of_string s).

(** * Properties *)

(** ** Inverter control *)

Ltac run_session :=
  unfold Inverter.force_charge_inverter, Inverter.reset_inverter_settings,
    catch, mbind, session_bind, bind, write_register, ret; simpl.

Lemma limit_above (MAX p : Z) : p > MAX -> Inverter.limit MAX p = MAX.
Proof.
  intros Hp. unfold Inverter.limit.
  destruct (p >? MAX) eqn:E; [reflexivity | lia].
Qed.

Lemma limit_le (MAX p : Z) : Inverter.limit MAX p <= MAX.
Proof.
  unfold Inverter.limit. destruct (p >? MAX) eqn:E; lia.
Qed.

(** The forced-charge transition only ever sends an initial part of its
    command sequence, computed from the limited power. *)
Lemma force_charge_traffic (MAX p : Z) (b : bus) (inv : inverter) :
  exists sent,
    traffic (snd (Inverter.force_charge_inverter MAX b p inv)) = traffic inv ++ sent
    /\ sent `prefix_of` force_charge_commands (Inverter.limit MAX p).
Proof.
  unfold force_charge_commands.
  set (v := Inverter.value_40355 (Inverter.limit MAX p)).
  run_session. fold v.
  destruct (connect_ok b); simpl.
  2: { exists []. rewrite app_nil_r. split; [reflexivity | apply prefix_nil]. }
  destruct (respond b 40348 2); simpl;
    try (exists [(40348, 2)]; split; [reflexivity | by eexists]).
  destruct (respond b 40355 v); simpl; rewrite <- ?app_assoc; simpl;
    try (exists [(40348, 2); (40355, v)]; split; [reflexivity | by eexists]).
  destruct (respond b 40350 9900); simpl; rewrite <- ?app_assoc; simpl;
    exists [(40348, 2); (40355, v); (40350, 9900)]; split; reflexivity.
Qed.

(** When the transition reports success, register 40355 holds the encoding
    of the limited power. *)
Lemma force_charge_success (MAX p : Z) (b : bus) (inv : inverter) :
  fst (Inverter.force_charge_inverter MAX b p inv) = Return true ->
  registers (snd (Inverter.force_charge_inverter MAX b p inv)) !! 40355
  = Some (Inverter.value_40355 (Inverter.limit MAX p)).
Proof.
  set (v := Inverter.value_40355 (Inverter.limit MAX p)).
  run_session. fold v.
  destruct (connect_ok b); simpl; [| discriminate].
  destruct (respond b 40348 2); simpl; try discriminate.
  destruct (respond b 40355 v); simpl; try discriminate.
  destruct (respond b 40350 9900); simpl; try discriminate.
  intros _. rewrite lookup_insert_ne by lia. by rewrite lookup_insert_eq.
Qed.

(** C6. A requested charging power above the configured maximum is limited
    to the maximum before it is encoded: the transition behaves exactly as
    for a request of the maximum, every write it sends belongs to the
    command sequence of the maximum, and on success register 40355 holds
    the encoding of the maximum. *)
Theorem force_charge_clamps_to_maximum (MAX p : Z) (b : bus) (inv : inverter) :
  p > MAX ->
  Inverter.force_charge_inverter MAX b p inv
  = Inverter.force_charge_inverter MAX b MAX inv
  /\ (exists sent,
        traffic (snd (Inverter.force_charge_inverter MAX b p inv))
        = traffic inv ++ sent
        /\ sent `prefix_of` force_charge_commands MAX)
  /\ (fst (Inverter.force_charge_inverter MAX b p inv) = Return true ->
      registers (snd (Inverter.force_charge_inverter MAX b p inv)) !! 40355
      = Some (Inverter.value_40355 MAX)).
Proof.
  intros Hp. split; [| split].
  - unfold Inverter.force_charge_inverter.
    rewrite (limit_above MAX p Hp).
    assert (Inverter.limit MAX MAX = MAX) as ->
      by (unfold Inverter.limit; destruct (MAX >? MAX) eqn:E; reflexivity).
    reflexivity.
  - destruct (force_charge_traffic MAX p b inv) as (sent & Ht & Hpre).
    rewrite (limit_above MAX p Hp) in Hpre. eauto.
  - intros Hok. rewrite (force_charge_success MAX p b inv Hok).
    by rewrite (limit_above MAX p Hp).
Qed.

(** A request of 9000 W under a maximum of 5000 W leaves 65536 - 500 in
    register 40355. *)
Lemma force_charge_clamps_to_maximum_witness :
  9000 > 5000
  /\ registers (snd (Inverter.force_charge_inverter 5000 healthy 9000 idle)) !! 40355
     = Some 65036.
Proof.
  split; [lia |].
  apply (force_charge_clamps_to_maximum 5000 9000 healthy idle); [lia | reflexivity].
Defined.

(** C10. For a non-negative requested power and a configured maximum of at
    most 655350 W, the value computed for register 40355 is 55536 when the
    limited power is below 10 W and 65536 - int(power / 10) otherwise, it
    fits an unsigned 16-bit register, and it is the only value the
    transition ever sends to that register. *)
Theorem charge_power_register_in_range (MAX p : Z) (b : bus) (inv : inverter) :
  0 <= p -> MAX <= 655350 ->
  let power := Inverter.limit MAX p in
  let value := Inverter.value_40355 power in
  value = (if power <? 10 then 55536 else 65536 - int_div10 power)
  /\ 0 <= value <= 65535
  /\ (exists sent,
        traffic (snd (Inverter.force_charge_inverter MAX b p inv))
        = traffic inv ++ sent
        /\ forall v, (40355, v) ∈ sent -> v = value).
Proof.
  intros Hp Hmax power value.
  assert (power <= MAX) as Hle by apply limit_le.
  split; [| split].
  - unfold value, Inverter.value_40355. destruct (power <? 10); lia.
  - unfold value, Inverter.value_40355, int_div10.
    destruct (power <? 10) eqn:E; [lia |].
    apply Z.ltb_ge in E.
    assert (1 <= power ÷ 10) by (apply Z.quot_le_lower_bound; lia).
    assert (power ÷ 10 <= 65535) by (apply Z.quot_le_upper_bound; lia).
    lia.
  - destruct (force_charge_traffic MAX p b inv) as (sent & Ht & Hpre).
    exists sent. split; [exact Ht |].
    intros v Hv. eapply elem_of_prefix in Hv; [| exact Hpre].
    unfold force_charge_commands in Hv. fold power in Hv. fold value in Hv.
    rewrite !elem_of_cons in Hv.
    destruct Hv as [Hv | [Hv | [Hv | Hv]]];
      [congruence | congruence | congruence | by apply elem_of_nil in Hv].
Qed.

(** A request of 3000 W under the default maximum of 5000 W sends 65236. *)
Lemma charge_power_register_in_range_witness :
  0 <= 3000 /\ 5000 <= 655350
  /\ 0 <= Inverter.value_40355 (Inverter.limit 5000 3000) <= 65535.
Proof.
  split; [lia | split; [lia |]].
  apply (charge_power_register_in_range 5000 3000 healthy idle); lia.
Defined.

(** ** Charging state store *)

Lemma load_saved_record (charging : bool) (stamp : string) (w : bool) :
  load_charging_state
    {| STATE_FILE := Parsed (JObject (state_record charging stamp)); writable := w |}
  = Return (PyBool charging).
Proof.
  unfold load_charging_state, state_record. simpl.
  by rewrite lookup_insert_eq.
Qed.

(** The part of the store's contract that holds: saving a boolean and
    loading it back returns that boolean, whatever was in the state file
    before; loading when the state file is absent, cannot be opened or
    read, or holds text that is not JSON returns false. *)
Theorem charging_state_round_trip :
  (forall (b : bool) (stamp : string) (before : file),
      load_charging_state
        (save_charging_state stamp b {| STATE_FILE := before; writable := true |})
      = Return (PyBool b))
  /\ (forall w : bool,
        load_charging_state {| STATE_FILE := Absent; writable := w |}
        = Return (PyBool false))
  /\ (forall w : bool,
        load_charging_state {| STATE_FILE := Unreadable; writable := w |}
        = Return (PyBool false))
  /\ (forall w : bool,
        load_charging_state {| STATE_FILE := Malformed; writable := w |}
        = Return (PyBool false)).
Proof.
  split; [| repeat split].
  intros b stamp before. unfold save_charging_state. simpl.
  apply load_saved_record.
Qed.

(** C9. A state file whose bytes do not decode as text makes
    [load_charging_state] raise [UnicodeDecodeError]: the handler does not
    name that exception, and the load does not return false. *)
Theorem undecodable_state_file_raises (w : bool) :
  load_charging_state {| STATE_FILE := Undecodable; writable := w |}
  = Raise UnicodeDecodeError
  /\ load_charging_state {| STATE_FILE := Undecodable; writable := w |}
     <> Return (PyBool false).
Proof.
  split; [reflexivity | discriminate].
Qed.

(** ** Charge rate calculation *)

Example strptime_2300 : strptime_HM "23:00" = Some (23, 0).
Proof. reflexivity. Qed.

Example strptime_short_fields : strptime_HM "7:5" = Some (7, 5).
Proof. reflexivity. Qed.

Example strptime_hour_24 : strptime_HM "24:00" = None.
Proof. reflexivity. Qed.

Example strptime_seconds : strptime_HM "23:00:00" = None.
Proof. reflexivity. Qed.

Example round_ties_to_even : round (5 # 2) = 2 /\ round (7 # 2) = 4 /\ round (-5 # 2) = -2.
Proof. repeat split. Qed.

(** The scenario of the design document at 23:30: 6.5 h less the margin. *)
Example rate_at_2330_overnight_window :
  RateCalc.calculate_charge_rate 3 "23:00" "06:00" (at_time d20240115 23 30) = 545.
Proof. vm_compute. reflexivity. Qed.

Lemma round_zero (x : Q) : (x == 0)%Q -> round x = 0.
Proof.
  intros Hx. unfold round.
  assert (Qfloor x = 0) as -> by (rewrite Hx; reflexivity).
  assert ((x - inject_Z 0 ?= 1 # 2)%Q = Lt) as ->; [| reflexivity].
  rewrite Hx. reflexivity.
Qed.

(** A deficit of zero gives a rate of zero, for every window and time. *)
Lemma zero_deficit_zero_rate (deficit_kwh : Q) (window_start window_end : string)
    (current_time : Z) :
  (deficit_kwh == 0)%Q ->
  RateCalc.calculate_charge_rate deficit_kwh window_start window_end current_time = 0.
Proof.
  intros Hd. unfold RateCalc.calculate_charge_rate.
  destruct (strptime_HM window_start) as [[sh sm] |]; [| reflexivity].
  destruct (strptime_HM window_end) as [[eh em] |]; [| reflexivity].
  cbv zeta.
  repeat match goal with
         | |- context [if ?c then _ else _] => destruct c
         | |- context [let '(_, _) := ?p in _] => destruct p
         end; try reflexivity;
    rewrite round_zero; try reflexivity; rewrite Hd; unfold Qdiv; ring.
Qed.

Lemma at_time_shift (day k hour minute : Z) :
  at_time (day + k) hour minute = at_time day hour minute + k * US_PER_DAY.
Proof. unfold at_time. ring. Qed.

(** The calculation does not depend on the calendar day: moving the clock
    by whole days leaves the rate unchanged. *)
Lemma rate_day_shift (deficit_kwh : Q) (window_start window_end : string)
    (current_time k : Z) :
  RateCalc.calculate_charge_rate deficit_kwh window_start window_end
    (current_time + k * US_PER_DAY)
  = RateCalc.calculate_charge_rate deficit_kwh window_start window_end current_time.
Proof.
  unfold RateCalc.calculate_charge_rate.
  destruct (strptime_HM window_start) as [[sh sm] |]; [| reflexivity].
  destruct (strptime_HM window_end) as [[eh em] |]; [| reflexivity].
  cbv zeta.
  rewrite Z.div_add by (unfold US_PER_DAY, US_PER_SECOND; lia).
  rewrite !at_time_shift.
  set (s := at_time (current_time / US_PER_DAY) sh sm).
  set (e := at_time (current_time / US_PER_DAY) eh em).
  set (D := k * US_PER_DAY).
  assert (0 < one_day) as Hday by (unfold one_day, US_PER_DAY, US_PER_SECOND; lia).
  destruct (Z.ltb_spec e s) as [H1 | H1];
    [ replace (e + D <? s + D) with true by (symmetry; apply Z.ltb_lt; lia)
    | replace (e + D <? s + D) with false by (symmetry; apply Z.ltb_ge; lia) ].
  - destruct (Z.gtb_spec current_time (e + one_day)) as [H2 | H2];
      [ replace (current_time + D >? e + D + one_day) with true
          by (symmetry; apply Z.gtb_lt; lia)
      | replace (current_time + D >? e + D + one_day) with false
          by (symmetry; rewrite Z.gtb_ltb; apply Z.ltb_ge; lia) ].
    + destruct (Z.ltb_spec current_time (s + one_day)) as [H3 | H3];
        [ replace (current_time + D <? s + D + one_day) with true
            by (symmetry; apply Z.ltb_lt; lia)
        | replace (current_time + D <? s + D + one_day) with false
            by (symmetry; apply Z.ltb_ge; lia) ].
      * replace (e + D + one_day + one_day - (s + D + one_day))
          with (e + one_day + one_day - (s + one_day)) by lia. reflexivity.
      * replace (e + D + one_day + one_day - (current_time + D))
          with (e + one_day + one_day - current_time) by lia. reflexivity.
    + destruct (Z.ltb_spec current_time s) as [H3 | H3];
        [ replace (current_time + D <? s + D) with true
            by (symmetry; apply Z.ltb_lt; lia)
        | replace (current_time + D <? s + D) with false
            by (symmetry; apply Z.ltb_ge; lia) ].
      * replace (e + D + one_day - (s + D)) with (e + one_day - s) by lia.
        reflexivity.
      * replace (e + D + one_day - (current_time + D))
          with (e + one_day - current_time) by lia. reflexivity.
  - destruct (Z.gtb_spec current_time e) as [H2 | H2];
      [ replace (current_time + D >? e + D) with true
          by (symmetry; apply Z.gtb_lt; lia)
      | replace (current_time + D >? e + D) with false
          by (symmetry; rewrite Z.gtb_ltb; apply Z.ltb_ge; lia) ].
    + destruct (Z.ltb_spec current_time (s + one_day)) as [H3 | H3];
        [ replace (current_time + D <? s + D + one_day) with true
            by (symmetry; apply Z.ltb_lt; lia)
        | replace (current_time + D <? s + D + one_day) with false
            by (symmetry; apply Z.ltb_ge; lia) ].
      * replace (e + D + one_day - (s + D + one_day))
          with (e + one_day - (s + one_day)) by lia. reflexivity.
      * replace (e + D + one_day - (current_time + D))
          with (e + one_day - current_time) by lia. reflexivity.
    + destruct (Z.ltb_spec current_time s) as [H3 | H3];
        [ replace (current_time + D <? s + D) with true
            by (symmetry; apply Z.ltb_lt; lia)
        | replace (current_time + D <? s + D) with false
            by (symmetry; apply Z.ltb_ge; lia) ].
      * replace (e + D - (s + D)) with (e - s) by lia. reflexivity.
      * replace (e + D - (current_time + D)) with (e - current_time) by lia.
        reflexivity.
Qed.

Lemma digit_range (c : ascii) (x : Z) : digit c = Some x -> 0 <= x <= 9.
Proof.
  unfold digit. intros H.
  destruct ((48 <=? Z.of_nat (nat_of_ascii c)) && (Z.of_nat (nat_of_ascii c) <=? 57))
    eqn:E; [| discriminate].
  apply andb_prop in E as [E1 E2]. injection H as <-. lia.
Qed.

Lemma field_range (hi : Z) (cs : list ascii) (v : Z) :
  9 <= hi -> field hi cs = Some v -> 0 <= v <= hi.
Proof.
  intros Hhi. unfold field.
  destruct cs as [| a [| b [| ? ?]]]; try discriminate.
  - intros H. apply digit_range in H. lia.
  - destruct (digit a) as [x |] eqn:Ea; [| discriminate].
    destruct (digit b) as [y |] eqn:Eb; [| discriminate].
    simpl. apply digit_range in Ea, Eb.
    destruct (10 * x + y <=? hi) eqn:E; [| discriminate].
    intros H. injection H as <-. lia.
Qed.

Lemma strptime_HM_range (s : string) (hour minute : Z) :
  strptime_HM s = Some (hour, minute) ->
  0 <= hour <= 23 /\ 0 <= minute <= 59.
Proof.
  unfold strptime_HM.
  destruct (split_colon (lstrip (String.list_ascii_of_string s))) as [[h m] |];
    [| discriminate]. simpl.
  destruct (field 23 h) as [x |] eqn:Eh; [| discriminate]. simpl.
  destruct (field 59 m) as [y |] eqn:Em; [| discriminate]. simpl.
  intros H. injection H as <- <-.
  apply field_range in Eh, Em; lia.
Qed.

Lemma at_time_day (day hour minute : Z) :
  at_time day hour minute = at_time 0 hour minute + day * US_PER_DAY.
Proof. unfold at_time. ring. Qed.

(** For a window that does not span midnight, the rate at the very end of
    the window is zero, for every deficit. *)
Lemma same_day_window_end_zero_rate (deficit_kwh : Q)
    (window_start window_end : string) (sh sm eh em day : Z) :
  strptime_HM window_start = Some (sh, sm) ->
  strptime_HM window_end = Some (eh, em) ->
  at_time 0 sh sm <= at_time 0 eh em ->
  RateCalc.calculate_charge_rate deficit_kwh window_start window_end
    (at_time day eh em) = 0.
Proof.
  intros Hs He Hle.
  rewrite at_time_day, rate_day_shift.
  unfold RateCalc.calculate_charge_rate. rewrite Hs, He. cbv zeta.
  apply strptime_HM_range in Hs, He.
  assert (at_time 0 eh em / US_PER_DAY = 0) as ->.
  { apply Z.div_small. unfold at_time, US_PER_DAY, US_PER_SECOND. lia. }
  set (s := at_time 0 sh sm) in *. set (e := at_time 0 eh em) in *.
  replace (e <? s) with false by (symmetry; apply Z.ltb_ge; lia).
  replace (e >? e) with false by (symmetry; rewrite Z.gtb_ltb; apply Z.ltb_ge; lia).
  replace (e <? s) with false by (symmetry; apply Z.ltb_ge; lia).
  rewrite Z.sub_diag. reflexivity.
Qed.

(** C2. With a deficit of 3 kWh and the window 23:00 to 06:00, at 05:45 the
    calculation anchors the window to the current date, finds the clock
    before that evening's start, uses the whole coming window (7 h less the
    1 h margin) and returns round(3000 / 6) = 500 W, on every day. *)
Theorem rate_at_0545_overnight_window (day : Z) :
  RateCalc.calculate_charge_rate 3 "23:00" "06:00" (at_time day 5 45) = 500.
Proof.
  rewrite at_time_day, rate_day_shift. vm_compute. reflexivity.
Qed.

(** C8. With a positive deficit of 3 kWh and the window 23:00 to 06:00, at
    06:00 sharp, the end of the window, the calculation returns 500 W and
    not 0: it takes the clock to be before that evening's start. *)
Theorem rate_at_overnight_window_end (day : Z) :
  RateCalc.calculate_charge_rate 3 "23:00" "06:00" (at_time day 6 0) = 500.
Proof.
  rewrite at_time_day, rate_day_shift. vm_compute. reflexivity.
Qed.

(** ** Deficit calculation *)

(** C5. With a valid solar forecast: when the efficiency is positive the
    block yields the deficit of the design formula (with a missing SOC
    reading counted as 0 percent); when it is not positive the run exits
    with status 1 and no deficit is computed. *)
Theorem deficit_matches_formula (args : config) (total_solar_kwh : Q)
    (latest_soc : option Q) (predicted_power_need_kwh : Q) (now : Z) :
  ((0 < BATTERY_CHARGE_EFFICIENCY args)%Q ->
   exists total_deficit_kwh charge_rate,
     Deficit.deficit_calculation args (Deficit.SolarForecast total_solar_kwh)
       latest_soc predicted_power_need_kwh now
     = Return (total_deficit_kwh, charge_rate)
     /\ (total_deficit_kwh ==
         deficit_formula predicted_power_need_kwh total_solar_kwh
           (default 0%Q latest_soc) (minimum_soc_percent args)
           (minimum_soc_by_sunset args) (battery_size_kwh args)
           (BATTERY_CHARGE_EFFICIENCY args))%Q)
  /\ ((BATTERY_CHARGE_EFFICIENCY args <= 0)%Q ->
      Deficit.deficit_calculation args (Deficit.SolarForecast total_solar_kwh)
        latest_soc predicted_power_need_kwh now
      = Raise (SystemExit 1)).
Proof.
  unfold Deficit.deficit_calculation. split; intros Heff.
  - destruct (Qle_bool (BATTERY_CHARGE_EFFICIENCY args) 0) eqn:E.
    + apply Qle_bool_iff in E. exfalso. apply (Qlt_not_le _ _ Heff E).
    + eexists. eexists. split; [reflexivity |].
      unfold deficit_formula. reflexivity.
  - apply Qle_bool_iff in Heff. rewrite Heff. reflexivity.
Qed.

(** With the sample configuration, 12 kWh forecast need, 4 kWh of sun and
    the battery at 30 percent, the deficit is (12 - (4 + 2) + 2) / 0.95. *)
Lemma deficit_matches_formula_witness :
  ((0 < BATTERY_CHARGE_EFFICIENCY sample_args)%Q
   /\ exists total_deficit_kwh charge_rate,
        Deficit.deficit_calculation sample_args (Deficit.SolarForecast 4)
          (Some 30%Q) 12 (at_time d20240115 23 30)
        = Return (total_deficit_kwh, charge_rate)
        /\ (total_deficit_kwh == 800 # 95)%Q)
  /\ ((BATTERY_CHARGE_EFFICIENCY lossy_args <= 0)%Q
      /\ Deficit.deficit_calculation lossy_args (Deficit.SolarForecast 4)
           (Some 30%Q) 12 (at_time d20240115 23 30)
         = Raise (SystemExit 1)).
Proof.
  split.
  - split; [reflexivity |].
    destruct (deficit_matches_formula sample_args 4 (Some 30%Q) 12
                (at_time d20240115 23 30)) as [Hpos _].
    destruct (Hpos eq_refl) as (d & r & Hrun & Hd).
    exists d, r. split; [exact Hrun |].
    rewrite Hd. vm_compute. reflexivity.
  - assert (BATTERY_CHARGE_EFFICIENCY lossy_args <= 0)%Q as Hle
      by (vm_compute; discriminate).
    split; [exact Hle |].
    apply (deficit_matches_formula lossy_args 4 (Some 30%Q) 12
             (at_time d20240115 23 30)). exact Hle.
Defined.

(** ** Decision logic and charge control *)

Example decision_at_2330 :
  decision sample_args 3 0 (at_time d20240115 23 30) = (545, true).
Proof. vm_compute. reflexivity. Qed.

Example decision_at_2310 :
  decision sample_args 3 0 (at_time d20240115 23 10) = (514, true).
Proof. vm_compute. reflexivity. Qed.

Example decision_at_2340 :
  decision sample_args 12 0 (at_time d20240115 23 40) = (2250, true).
Proof. vm_compute. reflexivity. Qed.

Example decision_at_0545 :
  decision sample_args 3 0 (at_time d20240115 5 45) = (500, false).
Proof. vm_compute. reflexivity. Qed.

(** What [save_charging_state(False)] leaves on disk reads back as "not
    charging" whenever the state file did before. *)
Lemma save_false_keeps_not_charging (stamp : string) (d : disk) (cc : pyval) :
  load_charging_state d = Return cc -> truthy cc = false ->
  exists cc', load_charging_state (save_charging_state stamp false d) = Return cc'
              /\ truthy cc' = false.
Proof.
  intros Hload Hcc. unfold save_charging_state.
  destruct (writable d).
  - exists (PyBool false). split; [apply load_saved_record | reflexivity].
  - exists cc. split; assumption.
Qed.

(** C1 (as amended). When the start of charging is attempted and
    [force_charge_inverter] returns False, the run ends not charging and
    calls [save_charging_state(False)]: the state file is written again,
    with a new time stamp, and still reads back as not charging, as it did
    at the start of the run. *)
Theorem failed_start_saves_not_charging (args : config) (b : bus)
    (current_time : Z) (stamp : string) (total_deficit_kwh : Q)
    (charge_rate0 charge_rate : Z) (cc : pyval) (w : world) :
  load_charging_state (data w) = Return cc ->
  truthy cc = false ->
  decision args total_deficit_kwh charge_rate0 current_time = (charge_rate, true) ->
  fst (Inverter.force_charge_inverter (max_battery_charge_rate args) b
         charge_rate (device w)) = Return false ->
  let result :=
    decision_logic_and_charge_control args b current_time stamp
      total_deficit_kwh charge_rate0 w in
  fst result = Return (PyBool false)
  /\ data (snd result) = save_charging_state stamp false (data w)
  /\ exists cc', load_charging_state (data (snd result)) = Return cc'
                 /\ truthy cc' = false.
Proof.
  intros Hload Hcc Hdec Hforce result. subst result.
  unfold decision_logic_and_charge_control. rewrite Hload, Hdec.
  unfold charge_control. rewrite Hcc. simpl.
  destruct (Inverter.force_charge_inverter (max_battery_charge_rate args) b
              charge_rate (device w)) as [[[] | e] dev]; simpl in *;
    try discriminate.
  split; [reflexivity | split; [reflexivity |]].
  by apply save_false_keeps_not_charging with (cc := cc).
Qed.

(** At 23:30 with the inverter unreachable and the state file saying "not
    charging" since the day before. *)
Lemma failed_start_saves_not_charging_witness :
  fst failed_start = Return (PyBool false)
  /\ data (snd failed_start)
     = save_charging_state "2024-01-15T23:30:00.000000" false stopped_yesterday.
Proof.
  destruct (failed_start_saves_not_charging sample_args unreachable
              (at_time d20240115 23 30) "2024-01-15T23:30:00.000000" 3 0 545
              (PyBool false) stopped_world) as (Hr & Hd & _);
    [reflexivity | reflexivity | vm_compute; reflexivity | reflexivity |].
  split; [exact Hr | exact Hd].
Defined.

Lemma state_record_timestamp (charging : bool) (stamp : string) :
  state_record charging stamp !! "timestamp" = Some (PyStr stamp).
Proof.
  unfold state_record. rewrite lookup_insert_ne by discriminate.
  by rewrite lookup_insert_eq.
Qed.

(** C1 (as stated) fails: at 23:30, with a deficit of 3 kWh, the state file
    saying "not charging" and the inverter unreachable, the start of
    charging is attempted, [force_charge_inverter] returns False, and the
    state file is written again: it no longer is what it was before the
    run. *)
Lemma failed_start_rewrites_state_file :
  load_charging_state (data stopped_world) = Return (PyBool false)
  /\ decision sample_args 3 0 (at_time d20240115 23 30) = (545, true)
  /\ fst (Inverter.force_charge_inverter (max_battery_charge_rate sample_args)
            unreachable 545 (device stopped_world)) = Return false
  /\ STATE_FILE (data (snd failed_start))
     = Parsed (JObject (state_record false "2024-01-15T23:30:00.000000"))
  /\ data (snd failed_start) <> data stopped_world.
Proof.
  split; [reflexivity |]. split; [vm_compute; reflexivity |].
  split; [reflexivity |].
  assert (STATE_FILE (data (snd failed_start))
          = Parsed (JObject (state_record false "2024-01-15T23:30:00.000000")))
    as Hfile by (vm_compute; reflexivity).
  split; [exact Hfile |].
  intros Heq.
  assert (file_timestamp (STATE_FILE (data (snd failed_start)))
          = file_timestamp (STATE_FILE (data stopped_world))) as Ht
    by (rewrite Heq; reflexivity).
  rewrite Hfile in Ht.
  unfold stopped_world, stopped_yesterday, file_timestamp in Ht.
  cbn [data STATE_FILE] in Ht.
  rewrite !state_record_timestamp in Ht. discriminate Ht.
Qed.

(** When the stop of charging is attempted and the inverter is unreachable,
    [reset_inverter_settings] returns False; its result is not looked at
    and the state file is written as "not charging". *)
Lemma failed_stop_saves_not_charging :
  load_charging_state (data charging_world) = Return (PyBool true)
  /\ fst (Inverter.reset_inverter_settings unreachable (device charging_world))
     = Return false
  /\ traffic (device (snd failed_stop)) = []
  /\ load_charging_state (data (snd failed_stop)) = Return (PyBool false).
Proof.
  repeat split; vm_compute; reflexivity.
Qed.

(** When the state file says "charging" and the decision is again to
    charge, the run sends nothing to the inverter and does not touch the
    state file, whatever the newly computed rate is. *)
Theorem continue_charging_writes_nothing (args : config) (b : bus)
    (current_time : Z) (stamp : string) (total_deficit_kwh : Q)
    (charge_rate0 charge_rate : Z) (cc : pyval) (w : world) :
  load_charging_state (data w) = Return cc ->
  truthy cc = true ->
  decision args total_deficit_kwh charge_rate0 current_time = (charge_rate, true) ->
  decision_logic_and_charge_control args b current_time stamp
    total_deficit_kwh charge_rate0 w
  = (Return cc, w).
Proof.
  intros Hload Hcc Hdec.
  unfold decision_logic_and_charge_control. rewrite Hload, Hdec.
  unfold charge_control. rewrite Hcc. reflexivity.
Qed.

(** The run of 23:40, which finds the state file saying "charging". *)
Lemma continue_charging_writes_nothing_witness :
  second_run = (Return (PyBool true), snd first_run).
Proof.
  apply (continue_charging_writes_nothing sample_args healthy
           (at_time d20240115 23 40) "2024-01-15T23:40:00.000000" 12 0 2250
           (PyBool true) (snd first_run)).
  - vm_compute. reflexivity.
  - reflexivity.
  - vm_compute. reflexivity.
Defined.

(** C7. The run of 23:10 starts charging at 514 W; the run of 23:40 finds
    the state "charging", decides to charge at 2250 W, more than four times
    the rate in force, and sends nothing: register 40355 still holds the
    encoding of 514 W. The rate is not updated, although the branch is
    commented as the place to update it when it has changed
    significantly. *)
Lemma rate_change_not_reapplied :
  fst first_run = Return (PyBool true)
  /\ traffic (device (snd first_run)) = force_charge_commands 514
  /\ load_charging_state (data (snd first_run)) = Return (PyBool true)
  /\ decision sample_args 12 0 (at_time d20240115 23 40) = (2250, true)
  /\ traffic (device (snd second_run)) = traffic (device (snd first_run))
  /\ registers (device (snd second_run)) !! 40355 = Some (Inverter.value_40355 514)
  /\ Inverter.value_40355 514 <> Inverter.value_40355 2250.
Proof.
  repeat split; try (vm_compute; reflexivity).
  vm_compute. discriminate.
Qed.

(** ** Telemetry aggregation *)

Example overnight_gap_sorted :
  sort_values overnight_gap = [late_reading; early_reading].
Proof. vm_compute. reflexivity. Qed.

Example overnight_gap_energy :
  (at_date (daily_energy overnight_gap) (d20240115 + 1) == 2000)%Q.
Proof. vm_compute. reflexivity. Qed.

Lemma at_date_empty (d : Z) : at_date ∅ d = 0%Q.
Proof. unfold at_date. by rewrite lookup_empty. Qed.

Lemma at_date_groupby_cons (d d' : Z) (e : Q) (rows : list (Z * Q)) :
  at_date (groupby_sum ((d', e) :: rows)) d
  = if decide (d' = d) then (e + at_date (groupby_sum rows) d')%Q
    else at_date (groupby_sum rows) d.
Proof.
  unfold groupby_sum at 1. simpl. fold (groupby_sum rows).
  unfold at_date at 1. rewrite lookup_insert.
  destruct (decide (d' = d)); reflexivity.
Qed.

(** The bucket of a date only collects the rows of that date. *)
Lemma at_date_groupby_app (d : Z) (l1 l2 : list (Z * Q)) :
  (at_date (groupby_sum (l1 ++ l2)) d
   == at_date (groupby_sum l1) d + at_date (groupby_sum l2) d)%Q.
Proof.
  induction l1 as [| [d' e] l1 IH].
  - rewrite app_nil_l.
    change (groupby_sum []) with (∅ : gmap Z Q). rewrite at_date_empty. ring.
  - rewrite <- app_comm_cons, !at_date_groupby_cons.
    destruct (decide (d' = d)) as [-> | Hne]; [| exact IH].
    rewrite IH. ring.
Qed.

Lemma at_date_groupby_absent (d : Z) (rows : list (Z * Q)) :
  Forall (fun row => fst row <> d) rows -> at_date (groupby_sum rows) d = 0%Q.
Proof.
  induction 1 as [| [d' e] rows Hd _ IH].
  - apply at_date_empty.
  - rewrite at_date_groupby_cons. simpl in Hd.
    destruct (decide (d' = d)); [done | exact IH].
Qed.

Lemma energy_rows_from_app (prev : Z) (l1 : list reading) (a : reading)
    (rest : list reading) :
  energy_rows_from prev (l1 ++ a :: rest)
  = energy_rows_from prev (l1 ++ [a]) ++ energy_rows_from (Time a) rest.
Proof.
  revert prev. induction l1 as [| r l1 IH]; intros prev; simpl.
  - reflexivity.
  - by rewrite IH.
Qed.

(** The rows of a sorted group split at any reading: what follows a reading
    depends on what precedes it only through that reading's time. *)
Lemma energy_rows_app (pre : list reading) (a : reading) (rest : list reading) :
  energy_rows (pre ++ a :: rest)
  = energy_rows (pre ++ [a]) ++ energy_rows_from (Time a) rest.
Proof.
  destruct pre as [| r pre]; simpl.
  - reflexivity.
  - by rewrite energy_rows_from_app.
Qed.

Lemma energy_rows_from_dates (P : Z -> Prop) (prev : Z) (l : list reading) :
  Forall (fun r => P (Aggregator.Date r)) l ->
  Forall (fun row => P (fst row)) (energy_rows_from prev l).
Proof.
  revert prev. induction l as [| r l IH]; intros prev Hl; simpl.
  - constructor.
  - inversion Hl; subst. constructor; [assumption | by apply IH].
Qed.

Lemma energy_rows_dates (P : Z -> Prop) (l : list reading) :
  Forall (fun r => P (Aggregator.Date r)) l ->
  Forall (fun row => P (fst row)) (energy_rows l).
Proof.
  destruct l as [| r l]; intros Hl; simpl.
  - constructor.
  - inversion Hl; subst. constructor; [assumption |].
    by apply energy_rows_from_dates.
Qed.

Lemma Date_mono (a b : reading) :
  time_le a b -> Aggregator.Date a <= Aggregator.Date b.
Proof.
  unfold time_le, Aggregator.Date. intros H.
  apply Z.div_le_mono; [unfold US_PER_DAY, US_PER_SECOND; lia | exact H].
Qed.

(** C4 (as amended). In a power entity's time-ordered readings, let [a] be
    the last reading of its date and [b], on a later date, the reading that
    follows it. The bucket of [a]'s date receives nothing from [b] or any
    later reading; the gap between [a] and [b] is charged in full, at the
    power read by [b], to the bucket of [b]'s date. *)
Theorem gap_charged_to_next_date (group pre post : list reading) (a b : reading) :
  sort_values group = pre ++ a :: b :: post ->
  Aggregator.Date a < Aggregator.Date b ->
  (at_date (daily_energy group) (Aggregator.Date a)
   == at_date (groupby_sum (energy_rows (pre ++ [a]))) (Aggregator.Date a))%Q
  /\ (at_date (daily_energy group) (Aggregator.Date b)
      == State b * total_seconds (Time b - Time a) / 3600
         + at_date (groupby_sum (energy_rows_from (Time b) post))
             (Aggregator.Date b))%Q.
Proof.
  intros Hsort Hdate.
  assert (StronglySorted time_le (pre ++ a :: b :: post)) as Hs
    by (rewrite <- Hsort; apply StronglySorted_merge_sort; apply _).
  apply StronglySorted_app in Hs as (Hcross & _ & Htail).
  apply StronglySorted_cons in Htail as (Ha & Htail).
  apply StronglySorted_cons in Htail as (Hb & _).
  assert (Forall (fun r => Aggregator.Date b <= Aggregator.Date r) (b :: post))
    as Hlate.
  { constructor; [lia |].
    eapply Forall_impl; [exact Hb |]. intros r Hr. by apply Date_mono. }
  assert (Forall (fun r => Aggregator.Date r <= Aggregator.Date a) (pre ++ [a]))
    as Hearly.
  { apply Forall_app. split.
    - apply Forall_forall. intros r Hr. apply Date_mono, Hcross; [exact Hr |].
      apply elem_of_cons. by left.
    - constructor; [lia | constructor]. }
  unfold daily_energy. rewrite Hsort, energy_rows_app.
  split; rewrite at_date_groupby_app.
  - rewrite (at_date_groupby_absent (Aggregator.Date a)
               (energy_rows_from (Time a) (b :: post))); [ring |].
    apply (energy_rows_from_dates (fun d => d <> Aggregator.Date a)).
    eapply Forall_impl; [exact Hlate |]. simpl. intros r Hr. lia.
  - rewrite (at_date_groupby_absent (Aggregator.Date b)
               (energy_rows (pre ++ [a]))).
    2: { apply (energy_rows_dates (fun d => d <> Aggregator.Date b)).
         eapply Forall_impl; [exact Hearly |]. simpl. intros r Hr. lia. }
    change (energy_rows_from (Time a) (b :: post))
      with ((Aggregator.Date b, (State b * total_seconds (Time b - Time a) / 3600)%Q)
              :: energy_rows_from (Time b) post).
    rewrite at_date_groupby_cons.
    destruct (decide (Aggregator.Date b = Aggregator.Date b)); [ring | done].
Qed.

(** A load of 1000 W read at 23:00 and at 01:00 the next morning: nothing
    for the first day, 2000 Wh for the second. *)
Lemma gap_charged_to_next_date_witness :
  (at_date (daily_energy overnight_gap) d20240115 == 0)%Q
  /\ (at_date (daily_energy overnight_gap) (d20240115 + 1) == 2000)%Q.
Proof.
  destruct (gap_charged_to_next_date overnight_gap [] [] late_reading early_reading)
    as [H1 H2]; [vm_compute; reflexivity | vm_compute; reflexivity |].
  split.
  - change d20240115 with (Aggregator.Date late_reading).
    rewrite H1. vm_compute. reflexivity.
  - change (d20240115 + 1) with (Aggregator.Date early_reading).
    rewrite H2. vm_compute. reflexivity.
Defined.

(** C4 (as stated) fails: with a load of 1000 W read at 23:00 and at 01:00
    the next morning, the only interval is the one between the last reading
    of the first date and the first reading of the next, and it puts
    2000 Wh into the bucket of the second date, where integration within
    each day gives 0. *)
Lemma overnight_gap_is_counted :
  sort_values overnight_gap = [late_reading; early_reading]
  /\ Aggregator.Date late_reading = d20240115
  /\ Aggregator.Date early_reading = d20240115 + 1
  /\ (at_date (daily_energy overnight_gap) (d20240115 + 1) == 2000)%Q
  /\ (at_date (within_day_energy overnight_gap) (d20240115 + 1) == 0)%Q
  /\ ~ (at_date (daily_energy overnight_gap) (d20240115 + 1)
        == at_date (within_day_energy overnight_gap) (d20240115 + 1))%Q.
Proof.
  repeat split; try (vm_compute; reflexivity).
  vm_compute. discriminate.
Qed.

(** ** Forecast of the power need *)

Example one_day_history_rows :
  map Forecaster.Date (Forecaster.forecast_data sample_args (aggregate one_day_history))
  = [d20240115 - 1].
Proof. vm_compute. reflexivity. Qed.

Example one_day_history_need :
  match Forecaster.predict_power_need
          (Forecaster.forecast_data sample_args (aggregate one_day_history)) with
  | Return q => (q == 215 # 10)%Q
  | Raise _ => False
  end.
Proof. vm_compute. reflexivity. Qed.

Example one_day_run :
  fst (Script.run sample_args one_day_inputs fresh_world) = Return (PyBool true)
  /\ traffic (device (snd (Script.run sample_args one_day_inputs fresh_world)))
     = force_charge_commands 2967.
Proof. split; vm_compute; reflexivity. Qed.

(** Fitted on a single sample, the regression predicts that sample's value
    for every day of the week. *)
Lemma fit_single_sample (x v wd : Q) :
  (LinearRegression.predict (LinearRegression.fit [x] [v]) wd == v)%Q.
Proof.
  unfold LinearRegression.predict, LinearRegression.fit.
  assert (LinearRegression.mean [x] == x)%Q as Hx
    by (unfold LinearRegression.mean, LinearRegression.Qsum; simpl; field).
  assert (LinearRegression.mean [v] == v)%Q as Hv
    by (unfold LinearRegression.mean, LinearRegression.Qsum; simpl; field).
  set (mx := LinearRegression.mean [x]) in *.
  set (mv := LinearRegression.mean [v]) in *.
  assert (Qeq_bool
            (LinearRegression.Qsum (map (fun x0 => (x0 - mx) * (x0 - mx))%Q [x])) 0
          = true) as ->.
  { apply Qeq_bool_iff. unfold LinearRegression.Qsum. simpl. rewrite Hx. ring. }
  simpl. rewrite Hv. ring.
Qed.

(** C3 (as amended). With no ForecastInput row the run ends in an uncaught
    KeyError before any forecast, and leaves the inverter and the state
    file as they were; with one row or more a prediction is always made,
    no minimum of history being asked for, and from exactly one row the
    prediction is that row's power need. *)
Theorem forecast_without_minimum_history (args : config) (i : Script.inputs)
    (w : world) :
  let rows := Forecaster.forecast_data args (aggregate (Script.groups i)) in
  (rows = [] -> Script.run args i w = (Raise KeyError, w))
  /\ (rows <> [] -> exists q, Forecaster.predict_power_need rows = Return q)
  /\ (forall r, rows = [r] ->
        exists q, Forecaster.predict_power_need rows = Return q
                  /\ (q == Forecaster.Power_Need r / 1000)%Q).
Proof.
  intros rows. split; [| split].
  - intros Hrows. unfold Script.run. fold rows. rewrite Hrows. reflexivity.
  - intros Hrows. destruct rows as [| r rest]; [done |].
    eexists. reflexivity.
  - intros r Hrows. rewrite Hrows. eexists. split; [reflexivity |].
    cbv zeta. simpl map. rewrite fit_single_sample. reflexivity.
Qed.

(** The run without history, and the run over one afternoon of history. *)
Lemma forecast_without_minimum_history_witness :
  Script.run sample_args no_history_inputs fresh_world = (Raise KeyError, fresh_world)
  /\ exists q,
       Forecaster.predict_power_need
         (Forecaster.forecast_data sample_args (aggregate one_day_history))
       = Return q.
Proof.
  split.
  - apply (forecast_without_minimum_history sample_args no_history_inputs fresh_world).
    vm_compute. reflexivity.
  - apply (forecast_without_minimum_history sample_args one_day_inputs fresh_world).
    vm_compute. discriminate.
Defined.

(** C3 (as stated) fails: over a history in which a single date, 2024-01-14,
    is present in all three series, the forecaster raises nothing and
    predicts 21.5 kWh, the need of that one day; the run goes on to decide
    to charge and puts the inverter into forced charge at 2967 W. *)
Lemma single_row_forecast_drives_charge :
  length (Forecaster.forecast_data sample_args (aggregate one_day_history)) = 1%nat
  /\ (exists q,
        Forecaster.predict_power_need
          (Forecaster.forecast_data sample_args (aggregate one_day_history))
        = Return q
        /\ (q == 215 # 10)%Q)
  /\ fst (Script.run sample_args one_day_inputs fresh_world) = Return (PyBool true)
  /\ traffic (device (snd (Script.run sample_args one_day_inputs fresh_world)))
     = force_charge_commands 2967
  /\ load_charging_state (data (snd (Script.run sample_args one_day_inputs fresh_world)))
     = Return (PyBool true).
Proof.
  split; [vm_compute; reflexivity |].
  split.
  - eexists. split; [vm_compute; reflexivity | vm_compute; reflexivity].
  - repeat split; vm_compute; reflexivity.
Qed.

(** * Further properties of the code *)

(** ** Inverter transitions *)

(** X1. [force_charge_inverter] returns True exactly when the connection is
    made and the inverter acknowledges all three writes; the registers then
    hold mode 2, the encoded limited power and the SOC limit 9900, and
    exactly the three commands went over the bus. *)
Theorem force_charge_true_iff_all_acknowledged (MAX p : Z) (b : bus)
    (inv : inverter) :
  let v := Inverter.value_40355 (Inverter.limit MAX p) in
  let r := Inverter.force_charge_inverter MAX b p inv in
  (fst r = Return true <->
   connect_ok b = true /\ respond b 40348 2 = Ack
   /\ respond b 40355 v = Ack /\ respond b 40350 9900 = Ack)
  /\ (fst r = Return true ->
      registers (snd r)
      = <[40350 := 9900]> (<[40355 := v]> (<[40348 := 2]> (registers inv)))
      /\ traffic (snd r)
         = traffic inv ++ force_charge_commands (Inverter.limit MAX p)).
Proof.
  intros v r. subst r. unfold force_charge_commands. fold v.
  run_session. fold v.
  destruct (connect_ok b); simpl; [| split; [split |]; intros; intuition discriminate].
  destruct (respond b 40348 2); simpl;
    try (split; [split |]; intros; intuition discriminate).
  destruct (respond b 40355 v); simpl;
    try (split; [split |]; intros; intuition discriminate).
  destruct (respond b 40350 9900); simpl;
    try (split; [split |]; intros; intuition discriminate).
  split; [split; intros; auto |].
  intros _. split; [reflexivity |]. by rewrite <- !app_assoc.
Qed.

(** X2. [reset_inverter_settings] never raises; it returns True exactly
    when the connection is made and all four writes are acknowledged, and
    the registers then hold mode 0, rates 10000 and minimum SOC 500. *)
Theorem reset_true_iff_all_acknowledged (b : bus) (inv : inverter) :
  let r := Inverter.reset_inverter_settings b inv in
  (exists ok : bool, fst r = Return ok)
  /\ (fst r = Return true <->
      connect_ok b = true /\ respond b 40348 0 = Ack
      /\ respond b 40355 10000 = Ack /\ respond b 40350 500 = Ack
      /\ respond b 40356 10000 = Ack)
  /\ (fst r = Return true ->
      registers (snd r)
      = <[40356 := 10000]> (<[40350 := 500]> (<[40355 := 10000]>
          (<[40348 := 0]> (registers inv))))).
Proof.
  intros r. subst r. run_session.
  destruct (connect_ok b); simpl;
    [| split; [by eexists | split; [split |]; intros; intuition discriminate]].
  destruct (respond b 40348 0); simpl;
    try (split; [by eexists | split; [split |]; intros; intuition discriminate]).
  destruct (respond b 40355 10000); simpl;
    try (split; [by eexists | split; [split |]; intros; intuition discriminate]).
  destruct (respond b 40350 500); simpl;
    try (split; [by eexists | split; [split |]; intros; intuition discriminate]).
  destruct (respond b 40356 10000); simpl;
    (split; [by eexists | split; [split |]; intros; intuition discriminate]).
Qed.

Lemma force_charge_registers (MAX p : Z) (b : bus) (inv : inverter) :
  fst (Inverter.force_charge_inverter MAX b p inv) = Return true ->
  registers (snd (Inverter.force_charge_inverter MAX b p inv))
  = <[40350 := 9900]>
      (<[40355 := Inverter.value_40355 (Inverter.limit MAX p)]>
         (<[40348 := 2]> (registers inv))).
Proof.
  set (v := Inverter.value_40355 (Inverter.limit MAX p)).
  run_session. fold v.
  destruct (connect_ok b); simpl; [| discriminate].
  destruct (respond b 40348 2); simpl; try discriminate.
  destruct (respond b 40355 v); simpl; try discriminate.
  destruct (respond b 40350 9900); simpl; try discriminate.
  reflexivity.
Qed.

Lemma reset_registers (b : bus) (inv : inverter) :
  fst (Inverter.reset_inverter_settings b inv) = Return true ->
  registers (snd (Inverter.reset_inverter_settings b inv))
  = factory_defaults (registers inv).
Proof.
  unfold factory_defaults. run_session.
  destruct (connect_ok b); simpl; [| discriminate].
  destruct (respond b 40348 0); simpl; try discriminate.
  destruct (respond b 40355 10000); simpl; try discriminate.
  destruct (respond b 40350 500); simpl; try discriminate.
  destruct (respond b 40356 10000); simpl; try discriminate.
  reflexivity.
Qed.

Lemma force_charge_frame (MAX p : Z) (b : bus) (inv : inverter) (r : Z) :
  r <> 40348 -> r <> 40355 -> r <> 40350 ->
  registers (snd (Inverter.force_charge_inverter MAX b p inv)) !! r
  = registers inv !! r.
Proof.
  intros H1 H2 H3.
  set (v := Inverter.value_40355 (Inverter.limit MAX p)).
  run_session. fold v.
  destruct (connect_ok b); simpl; [| reflexivity].
  destruct (respond b 40348 2); simpl; rewrite ?lookup_insert_ne by done;
    try reflexivity.
  destruct (respond b 40355 v); simpl; rewrite ?lookup_insert_ne by done;
    try reflexivity.
  destruct (respond b 40350 9900); simpl; rewrite ?lookup_insert_ne by done;
    reflexivity.
Qed.

Lemma reset_frame (b : bus) (inv : inverter) (r : Z) :
  r <> 40348 -> r <> 40355 -> r <> 40350 -> r <> 40356 ->
  registers (snd (Inverter.reset_inverter_settings b inv)) !! r
  = registers inv !! r.
Proof.
  intros H1 H2 H3 H4. run_session.
  destruct (connect_ok b); simpl; [| reflexivity].
  destruct (respond b 40348 0); simpl; rewrite ?lookup_insert_ne by done;
    try reflexivity.
  destruct (respond b 40355 10000); simpl; rewrite ?lookup_insert_ne by done;
    try reflexivity.
  destruct (respond b 40350 500); simpl; rewrite ?lookup_insert_ne by done;
    try reflexivity.
  destruct (respond b 40356 10000); simpl; rewrite ?lookup_insert_ne by done;
    reflexivity.
Qed.

(** X3. A forced charge followed by a reset, both reporting success, leaves
    the registers exactly as a reset alone would: mode 0, both rates
    10000, minimum SOC 500, whatever power was forced, and every other
    register as it was. *)
Theorem force_then_reset_restores_defaults (MAX p : Z) (b : bus) (inv : inverter) :
  fst (Inverter.force_charge_inverter MAX b p inv) = Return true ->
  fst (Inverter.reset_inverter_settings b
         (snd (Inverter.force_charge_inverter MAX b p inv))) = Return true ->
  registers (snd (Inverter.reset_inverter_settings b
                    (snd (Inverter.force_charge_inverter MAX b p inv))))
  = factory_defaults (registers inv).
Proof.
  intros Hforce Hreset.
  rewrite (reset_registers _ _ Hreset), (force_charge_registers _ _ _ _ Hforce).
  unfold factory_defaults. apply map_eq. intros i.
  rewrite !lookup_insert. repeat case_decide; congruence.
Qed.

(** Forcing 4000 W and resetting on a working link. *)
Lemma force_then_reset_restores_defaults_witness :
  registers (snd (Inverter.reset_inverter_settings healthy
                    (snd (Inverter.force_charge_inverter 5000 healthy 4000 idle))))
  = factory_defaults ∅.
Proof.
  apply (force_then_reset_restores_defaults 5000 4000 healthy idle); reflexivity.
Defined.

(** X4. Whatever the link does, the forced-charge transition changes no
    register other than 40348, 40355 and 40350, and the reset none other
    than those and 40356. *)
Theorem transitions_touch_only_their_registers (MAX p : Z) (b : bus)
    (inv : inverter) (r : Z) :
  r <> 40348 -> r <> 40355 -> r <> 40350 -> r <> 40356 ->
  registers (snd (Inverter.force_charge_inverter MAX b p inv)) !! r
  = registers inv !! r
  /\ registers (snd (Inverter.reset_inverter_settings b inv)) !! r
     = registers inv !! r.
Proof.
  intros H1 H2 H3 H4. split.
  - by apply force_charge_frame.
  - by apply reset_frame.
Qed.

(** Register 40347, from which the status is read, after either
    transition on a working link. *)
Lemma transitions_touch_only_their_registers_witness :
  registers (snd (Inverter.force_charge_inverter 5000 healthy 4000 idle)) !! 40347
  = None
  /\ registers (snd (Inverter.reset_inverter_settings healthy idle)) !! 40347
     = None.
Proof.
  apply (transitions_touch_only_their_registers 5000 4000 healthy idle 40347); lia.
Defined.

(** X5. From 10 W up to 655350 W, the largest power a 16-bit register can
    take (and well within the range in which the floating-point division
    of the code is exact), register 40355 holds the power in steps of 10 W,
    rounded down, as 65536 minus the number of steps: a power and its
    encoding differ by less than 10 W. *)
Theorem charge_power_encoding_step (p : Z) :
  10 <= p <= 655350 ->
  (65536 - Inverter.value_40355 p) * 10 <= p
  < (65536 - Inverter.value_40355 p) * 10 + 10.
Proof.
  intros Hp. unfold Inverter.value_40355, int_div10.
  destruct (p <? 10) eqn:E; [apply Z.ltb_lt in E; lia |].
  rewrite Z.quot_div_nonneg by lia.
  pose proof (Z.div_mod p 10 ltac:(lia)).
  pose proof (Z.mod_pos_bound p 10 ltac:(lia)).
  lia.
Qed.

(** 2967 W is written as 65536 - 296. *)
Lemma charge_power_encoding_step_witness :
  (65536 - Inverter.value_40355 2967) * 10 <= 2967
  < (65536 - Inverter.value_40355 2967) * 10 + 10.
Proof.
  apply (charge_power_encoding_step 2967). lia.
Defined.

(** X6. The forced-charge transition is not rolled back: once the mode
    write is acknowledged, register 40348 holds 2 even when a later write
    fails and the function does not return True. *)
Theorem failed_force_charge_leaves_mode_forced (MAX p : Z) (b : bus)
    (inv : inverter) :
  connect_ok b = true ->
  respond b 40348 2 = Ack ->
  fst (Inverter.force_charge_inverter MAX b p inv) <> Return true ->
  registers (snd (Inverter.force_charge_inverter MAX b p inv)) !! 40348 = Some 2.
Proof.
  intros Hc H1.
  set (v := Inverter.value_40355 (Inverter.limit MAX p)).
  run_session. fold v. rewrite Hc, H1. simpl.
  destruct (respond b 40355 v); simpl;
    try (intros _; by rewrite lookup_insert_eq).
  destruct (respond b 40350 9900); simpl; intros Hno;
    [done | |];
    rewrite lookup_insert_ne by lia; by rewrite lookup_insert_eq.
Qed.

(** The charge power write answered by an error response. *)
Lemma failed_force_charge_leaves_mode_forced_witness :
  fst (Inverter.force_charge_inverter 5000 power_write_fails 4000 idle)
  = Return false
  /\ registers (snd (Inverter.force_charge_inverter 5000 power_write_fails 4000 idle))
     !! 40348 = Some 2.
Proof.
  split; [reflexivity |].
  apply (failed_force_charge_leaves_mode_forced 5000 4000 power_write_fails idle);
    [reflexivity | reflexivity | discriminate].
Defined.

(** ** Status read-back *)

Lemma force_charge_connects (MAX p : Z) (b : bus) (inv : inverter) :
  fst (Inverter.force_charge_inverter MAX b p inv) = Return true ->
  connect_ok b = true.
Proof.
  run_session. destruct (connect_ok b); simpl; [reflexivity | discriminate].
Qed.

Lemma force_charge_content_frame (MAX p : Z) (b : bus) (inv : inverter) (a : Z) :
  a <> 40348 -> a <> 40355 -> a <> 40350 ->
  content (snd (Inverter.force_charge_inverter MAX b p inv)) a = content inv a.
Proof.
  intros. unfold content. by rewrite force_charge_frame.
Qed.

Lemma reset_content_frame (b : bus) (inv : inverter) (a : Z) :
  a <> 40348 -> a <> 40355 -> a <> 40350 -> a <> 40356 ->
  content (snd (Inverter.reset_inverter_settings b inv)) a = content inv a.
Proof.
  intros. unfold content. by rewrite reset_frame.
Qed.

(** X7. After a forced charge that reported success, the status read-back
    of the forecast script returns as charge rate the value just written to
    register 40355, and as control mode the content address 40347 had
    before the transition: the mode written by the transition, at address
    40348, is not the one read back. *)
Theorem status_after_force_charge (MAX p : Z) (b : bus)
    (answer : Z -> read_reply) (inv : inverter) :
  fst (Inverter.force_charge_inverter MAX b p inv) = Return true ->
  answer 40347 = Registers ->
  answer 40355 = Registers ->
  Status.read_battery_status b answer
    (snd (Inverter.force_charge_inverter MAX b p inv))
  = (Some (content inv 40347),
     Some (Inverter.value_40355 (Inverter.limit MAX p))).
Proof.
  intros Hforce Hm Hr. unfold Status.read_battery_status.
  rewrite (force_charge_connects _ _ _ _ Hforce), Hm, Hr. simpl.
  rewrite force_charge_content_frame by lia.
  unfold content at 2. by rewrite (force_charge_success _ _ _ _ Hforce).
Qed.

(** Forcing 4000 W on an inverter that shows 100 at address 40347. *)
Lemma status_after_force_charge_witness :
  Status.read_battery_status healthy readable
    (snd (Inverter.force_charge_inverter 5000 healthy 4000 showing_100))
  = (Some 100, Some 65136).
Proof.
  apply (status_after_force_charge 5000 4000 healthy readable showing_100);
    reflexivity.
Defined.

(** ** The battery test tool *)

Lemma test_status_mode_frame (b : bus) (answer : Z -> read_reply)
    (inv inv' : inverter) :
  content inv' 40347 = content inv 40347 ->
  content inv' 40357 = content inv 40357 ->
  fst (BatteryTest.read_battery_status b answer inv')
  = fst (BatteryTest.read_battery_status b answer inv).
Proof.
  intros H1 H2. unfold BatteryTest.read_battery_status, BatteryTest.try_read.
  rewrite H1, H2.
  destruct (connect_ok b); simpl; [| reflexivity].
  destruct (answer 40347), (answer 40357); simpl;
    repeat match goal with
           | |- context [if ?c then _ else _] => destruct c
           | |- context [match ?o with Some _ => _ | None => _ end] => destruct o
           end; reflexivity.
Qed.

(** X8. After a forced charge that reported success under a maximum below
    155360 W, the value in register 40355 is above the tool's sanity bound
    of 50000, so the tool's status reading reports as rate the content of
    register 40365 whenever that register and a mode can be read. *)
Theorem test_status_rate_after_force_charge (MAX p : Z) (b : bus)
    (answer : Z -> read_reply) (inv : inverter) :
  MAX < 155360 ->
  fst (Inverter.force_charge_inverter MAX b p inv) = Return true ->
  answer 40347 = Registers ->
  answer 40355 = Registers ->
  answer 40365 = Registers ->
  snd (BatteryTest.read_battery_status b answer
         (snd (Inverter.force_charge_inverter MAX b p inv)))
  = Some (content inv 40365).
Proof.
  intros Hmax Hforce Hm Hr Hf.
  unfold BatteryTest.read_battery_status, BatteryTest.try_read.
  rewrite (force_charge_connects _ _ _ _ Hforce), Hm, Hr, Hf. simpl.
  assert (content (snd (Inverter.force_charge_inverter MAX b p inv)) 40355
          = Inverter.value_40355 (Inverter.limit MAX p)) as ->
    by (unfold content; by rewrite (force_charge_success _ _ _ _ Hforce)).
  assert ((Inverter.value_40355 (Inverter.limit MAX p) >? 50000) = true) as ->.
  { apply Z.gtb_lt. pose proof (limit_le MAX p).
    unfold Inverter.value_40355, int_div10.
    destruct (Inverter.limit MAX p <? 10) eqn:E; [lia |].
    apply Z.ltb_ge in E.
    assert (Inverter.limit MAX p ÷ 10 < 15536)
      by (apply Z.quot_lt_upper_bound; lia).
    lia. }
  rewrite (force_charge_content_frame MAX p b inv 40365) by lia.
  destruct (content (snd (Inverter.force_charge_inverter MAX b p inv)) 40347 >? 10);
    [destruct (answer 40357) |]; reflexivity.
Qed.

(** Forcing 4000 W on an inverter that shows 100 at address 40347. *)
Lemma test_status_rate_after_force_charge_witness :
  snd (BatteryTest.read_battery_status healthy readable
         (snd (Inverter.force_charge_inverter 5000 healthy 4000 showing_100)))
  = Some 0.
Proof.
  apply (test_status_rate_after_force_charge 5000 4000 healthy readable showing_100);
    [lia | reflexivity | reflexivity | reflexivity | reflexivity].
Defined.

(** X9. On an inverter whose registers change only through these writes,
    the tool's [start] returns True only when it found mode 2 or 100
    already and wrote nothing: the mode it verifies after forcing the
    charge is read from addresses the transition does not write. *)
Theorem start_true_only_when_already_forced (max_charge_rate : Z) (b : bus)
    (answer : Z -> read_reply) (inv : inverter) :
  fst (BatteryTest.main max_charge_rate b answer BatteryTest.start inv)
  = Return true ->
  snd (BatteryTest.main max_charge_rate b answer BatteryTest.start inv) = inv
  /\ BatteryTest.force_charge_mode
       (fst (BatteryTest.read_battery_status b answer inv)) = true.
Proof.
  unfold BatteryTest.main.
  destruct (BatteryTest.read_battery_status b answer inv) as [mode rate] eqn:E.
  destruct mode as [m |]; [| discriminate].
  destruct (BatteryTest.force_charge_mode (Some m)) eqn:F; [by split |].
  destruct (Inverter.force_charge_inverter max_charge_rate b
              (max_charge_rate / 2) inv) as [[[] | e] inv'] eqn:Ef;
    try discriminate.
  destruct (BatteryTest.read_battery_status b answer inv') as [vm vr] eqn:Ev.
  simpl. intros H. exfalso.
  assert (vm = Some m) as ->.
  { change vm with (fst (vm, vr)). rewrite <- Ev.
    change (Some m) with (fst (Some m, rate)). rewrite <- E.
    change inv' with (snd (Return true, inv')). rewrite <- Ef.
    apply test_status_mode_frame; apply force_charge_content_frame; lia. }
  congruence.
Qed.

(** [start] on an inverter that already shows mode 2. *)
Lemma start_true_only_when_already_forced_witness :
  snd (BatteryTest.main 5000 healthy readable BatteryTest.start showing_2)
  = showing_2.
Proof.
  apply (start_true_only_when_already_forced 5000 healthy readable showing_2).
  reflexivity.
Defined.

(** X10. On such an inverter the tool's [stop] returns True only when it
    found the automatic mode already and wrote nothing, or when the reset
    went through and the mode it reads is 100. *)
Theorem stop_true_cases (max_charge_rate : Z) (b : bus)
    (answer : Z -> read_reply) (inv : inverter) :
  fst (BatteryTest.main max_charge_rate b answer BatteryTest.stop inv)
  = Return true ->
  (snd (BatteryTest.main max_charge_rate b answer BatteryTest.stop inv) = inv
   /\ BatteryTest.automatic_mode
        (fst (BatteryTest.read_battery_status b answer inv))
        (snd (BatteryTest.read_battery_status b answer inv)) = true)
  \/ (fst (Inverter.reset_inverter_settings b inv) = Return true
      /\ fst (BatteryTest.read_battery_status b answer inv) = Some 100).
Proof.
  unfold BatteryTest.main.
  destruct (BatteryTest.read_battery_status b answer inv) as [mode rate] eqn:E.
  destruct mode as [m |]; [| discriminate].
  destruct (BatteryTest.automatic_mode (Some m) rate) eqn:F; [by left |].
  destruct (Inverter.reset_inverter_settings b inv) as [[[] | e] inv'] eqn:Er;
    try discriminate.
  destruct (BatteryTest.read_battery_status b answer inv') as [vm vr] eqn:Ev.
  simpl. intros H. right. split; [reflexivity |].
  assert (vm = Some m) as ->.
  { change vm with (fst (vm, vr)). rewrite <- Ev.
    change (Some m) with (fst (Some m, rate)). rewrite <- E.
    change inv' with (snd (Return true, inv')). rewrite <- Er.
    apply test_status_mode_frame; apply reset_content_frame; lia. }
  injection H as H. unfold BatteryTest.automatic_mode in H, F.
  destruct (m =? 0) eqn:E0; [discriminate |].
  destruct (m =? 1) eqn:E1; [discriminate |].
  destruct (m =? 100) eqn:E100; [| discriminate].
  apply Z.eqb_eq in E100. by subst.
Qed.

(** [stop] on an inverter that shows mode 1. *)
Lemma stop_true_cases_witness :
  (snd (BatteryTest.main 5000 healthy readable BatteryTest.stop showing_1)
   = showing_1
   /\ BatteryTest.automatic_mode
        (fst (BatteryTest.read_battery_status healthy readable showing_1))
        (snd (BatteryTest.read_battery_status healthy readable showing_1)) = true)
  \/ (fst (Inverter.reset_inverter_settings healthy showing_1) = Return true
      /\ fst (BatteryTest.read_battery_status healthy readable showing_1)
         = Some 100).
Proof.
  apply (stop_true_cases 5000 healthy readable showing_1). reflexivity.
Defined.

(** ** Decision and charge control *)

(** X11. The decision is to charge only with a positive deficit and a
    positive rate, the rate being the one [calculate_charge_rate] gives for
    the deficit, the window and the clock of the decision. *)
Theorem charge_decision_needs_deficit_and_rate (args : config)
    (total_deficit_kwh : Q) (charge_rate0 current_time charge_rate : Z) :
  decision args total_deficit_kwh charge_rate0 current_time = (charge_rate, true) ->
  (0 < total_deficit_kwh)%Q
  /\ 0 < charge_rate
  /\ charge_rate
     = RateCalc.calculate_charge_rate total_deficit_kwh
         (cheap_power_window_start args) (cheap_power_window_end args)
         current_time.
Proof.
  unfold decision.
  destruct (Qlt_le_dec 0 total_deficit_kwh) as [Hpos | Hneg]; [| discriminate].
  set (rate := RateCalc.calculate_charge_rate total_deficit_kwh
                 (cheap_power_window_start args) (cheap_power_window_end args)
                 current_time).
  destruct (strptime_HM (cheap_power_window_start args)) as [[sh sm] |];
    [| discriminate].
  destruct (strptime_HM (cheap_power_window_end args)) as [[eh em] |];
    [| discriminate].
  cbv zeta.
  repeat match goal with
         | |- context [let '(_, _) := (if ?c then _ else _) in _] => destruct c
         end;
    match goal with
    | |- context [?x && (rate >? 0)] =>
        destruct x; simpl; [| discriminate];
        destruct (rate >? 0) eqn:E; [| discriminate];
        intros H; injection H as <-; apply Z.gtb_lt in E; auto
    end.
Qed.

(** The decision at 23:30 in the window 23:00 to 06:00. *)
Lemma charge_decision_needs_deficit_and_rate_witness :
  (0 < 3)%Q /\ 0 < 545
  /\ 545 = RateCalc.calculate_charge_rate 3 "23:00" "06:00"
             (at_time d20240115 23 30).
Proof.
  apply (charge_decision_needs_deficit_and_rate sample_args 3 0
           (at_time d20240115 23 30) 545).
  vm_compute. reflexivity.
Defined.

(** X12. With a window that spans midnight, the decision is never to
    charge between midnight and the start time of day: the window that
    opened the evening before is not recognised once the date has changed. *)
Theorem overnight_window_closed_after_midnight (args : config)
    (total_deficit_kwh : Q) (charge_rate0 day sh sm eh em offset : Z) :
  strptime_HM (cheap_power_window_start args) = Some (sh, sm) ->
  strptime_HM (cheap_power_window_end args) = Some (eh, em) ->
  at_time 0 eh em < at_time 0 sh sm ->
  0 <= offset < at_time 0 sh sm ->
  snd (decision args total_deficit_kwh charge_rate0 (day * US_PER_DAY + offset))
  = false.
Proof.
  intros Hs He Hover Hoff. unfold decision.
  destruct (Qlt_le_dec 0 total_deficit_kwh); [| reflexivity].
  rewrite Hs, He. cbv zeta.
  apply strptime_HM_range in Hs, He.
  assert (0 < US_PER_DAY) as HD by (unfold US_PER_DAY, US_PER_SECOND; lia).
  assert (at_time 0 sh sm < US_PER_DAY) as Hs_day
    by (unfold at_time, US_PER_DAY, US_PER_SECOND; lia).
  assert (0 <= at_time 0 eh em) as He_pos
    by (unfold at_time, US_PER_SECOND; lia).
  assert ((day * US_PER_DAY + offset) / US_PER_DAY = day) as ->.
  { rewrite Z.add_comm, Z.div_add by lia. rewrite Z.div_small; lia. }
  rewrite (at_time_day day sh sm), (at_time_day day eh em).
  set (s := at_time 0 sh sm) in *. set (e := at_time 0 eh em) in *.
  set (D := US_PER_DAY) in *. unfold one_day. fold D.
  replace (e + day * D <? s + day * D) with true
    by (symmetry; apply Z.ltb_lt; lia).
  replace (day * D + offset >? e + day * D + D) with false
    by (symmetry; rewrite Z.gtb_ltb; apply Z.ltb_ge; lia).
  replace (s + day * D <=? day * D + offset) with false
    by (symmetry; apply Z.leb_gt; lia).
  reflexivity.
Qed.

(** 05:45 in the window 23:00 to 06:00. *)
Lemma overnight_window_closed_after_midnight_witness :
  snd (decision sample_args 3 0 (d20240115 * US_PER_DAY + 20700000000)) = false.
Proof.
  apply (overnight_window_closed_after_midnight sample_args 3 0 d20240115
           23 0 6 0 20700000000);
    [reflexivity | reflexivity | reflexivity | split; [lia | reflexivity]].
Defined.

(** X13. A run of decision and charge control that ends in an exception,
    raised while loading the state or by a register write of the forced
    charge, leaves the state file as it was. *)
Theorem exception_leaves_state_file (args : config) (b : bus)
    (current_time : Z) (stamp : string) (total_deficit_kwh : Q)
    (charge_rate0 : Z) (w : world) (e : exn) :
  fst (decision_logic_and_charge_control args b current_time stamp
         total_deficit_kwh charge_rate0 w) = Raise e ->
  data (snd (decision_logic_and_charge_control args b current_time stamp
               total_deficit_kwh charge_rate0 w)) = data w.
Proof.
  unfold decision_logic_and_charge_control.
  destruct (load_charging_state (data w)) as [cc | e']; [| reflexivity].
  destruct (decision args total_deficit_kwh charge_rate0 current_time)
    as [rate should].
  unfold charge_control.
  destruct (should && negb (truthy cc)).
  - destruct (Inverter.force_charge_inverter (max_battery_charge_rate args) b
                rate (device w)) as [[[] | e''] dev]; simpl;
      try discriminate; reflexivity.
  - destruct (negb should && truthy cc); [| reflexivity].
    destruct (Inverter.reset_inverter_settings b (device w)) as [r dev].
    simpl. discriminate.
Qed.

(** The start of charging at 23:30 on a link that raises at the second
    write. *)
Lemma exception_leaves_state_file_witness :
  data (snd (decision_logic_and_charge_control sample_args power_write_raises
               (at_time d20240115 23 30) "2024-01-15T23:30:00.000000" 3 0
               stopped_world))
  = stopped_yesterday.
Proof.
  apply (exception_leaves_state_file sample_args power_write_raises
           (at_time d20240115 23 30) "2024-01-15T23:30:00.000000" 3 0
           stopped_world ConnectionException).
  vm_compute. reflexivity.
Defined.


(** ** The whole run *)

(** X15. With some history and a valid solar forecast, a battery charge
    efficiency that is not positive ends the run with exit status 1 before
    the state file is read or the inverter contacted. *)
Theorem bad_efficiency_stops_the_run (args : config) (i : Script.inputs)
    (w : world) (total_solar_kwh : Q) :
  Forecaster.forecast_data args (aggregate (Script.groups i)) <> [] ->
  Script.solar i = Deficit.SolarForecast total_solar_kwh ->
  (BATTERY_CHARGE_EFFICIENCY args <= 0)%Q ->
  Script.run args i w = (Raise (SystemExit 1), w).
Proof.
  intros Hrows Hsolar Heff. unfold Script.run.
  destruct (Forecaster.forecast_data args (aggregate (Script.groups i)))
    as [| r rest]; [done |].
  unfold Forecaster.predict_power_need. rewrite Hsolar.
  unfold Deficit.deficit_calculation.
  apply Qle_bool_iff in Heff. rewrite Heff. reflexivity.
Qed.

(** The run over one afternoon of history with an efficiency of 0. *)
Lemma bad_efficiency_stops_the_run_witness :
  Script.run lossy_args one_day_inputs fresh_world
  = (Raise (SystemExit 1), fresh_world).
Proof.
  apply (bad_efficiency_stops_the_run lossy_args one_day_inputs fresh_world 1).
  - vm_compute. discriminate.
  - reflexivity.
  - vm_compute. discriminate.
Defined.

(** X16. When the solar forecast is an error the deficit stays 0, so the
    run never starts a charge: with some history and a state file that
    says "not charging", it leaves the inverter and the state file
    untouched. *)
Theorem solar_error_never_starts_charge (args : config) (i : Script.inputs)
    (w : world) (msg : string) (cc : pyval) :
  Forecaster.forecast_data args (aggregate (Script.groups i)) <> [] ->
  Script.solar i = Deficit.SolarError msg ->
  load_charging_state (data w) = Return cc ->
  truthy cc = false ->
  Script.run args i w = (Return cc, w).
Proof.
  intros Hrows Hsolar Hload Hcc. unfold Script.run.
  destruct (Forecaster.forecast_data args (aggregate (Script.groups i)))
    as [| r rest]; [done |].
  unfold Forecaster.predict_power_need. rewrite Hsolar.
  unfold Deficit.deficit_calculation, decision_logic_and_charge_control.
  rewrite Hload. unfold decision.
  destruct (Qlt_le_dec 0 0) as [Hlt | _]; [by apply Qlt_irrefl in Hlt |].
  unfold charge_control. rewrite Hcc. reflexivity.
Qed.

(** The run over one afternoon of history with the weather service down
    and no state file. *)
Lemma solar_error_never_starts_charge_witness :
  Script.run sample_args no_forecast_inputs fresh_world
  = (Return (PyBool false), fresh_world).
Proof.
  apply (solar_error_never_starts_charge sample_args no_forecast_inputs
           fresh_world "Failed to fetch data: timeout" (PyBool false)).
  - vm_compute. discriminate.
  - reflexivity.
  - reflexivity.
  - reflexivity.
Defined.

(** ** Charge rate *)

Lemma round_monotone (x y : Q) : (x <= y)%Q -> round x <= round y.
Proof.
  intros Hxy. unfold round.
  pose proof (Qfloor_resp_le x y Hxy) as Hf.
  destruct (Z.eq_dec (Qfloor x) (Qfloor y)) as [Heq | Hne].
  - rewrite Heq.
    destruct (Qcompare_spec (x - inject_Z (Qfloor y)) (1 # 2)) as [Cx | Cx | Cx];
      destruct (Qcompare_spec (y - inject_Z (Qfloor y)) (1 # 2)) as [Cy | Cy | Cy];
      try (destruct (Z.even (Qfloor y))); try lia; exfalso; lra.
  - assert (Qfloor x + 1 <= Qfloor y) by lia.
    destruct (Qcompare (x - inject_Z (Qfloor x)) (1 # 2));
      destruct (Qcompare (y - inject_Z (Qfloor y)) (1 # 2));
      try (destruct (Z.even (Qfloor x))); try (destruct (Z.even (Qfloor y)));
      lia.
Qed.

(** X17. The rate does not depend on the calendar day: the same deficit,
    window and time of day give the same rate on every date. *)
Theorem rate_same_on_every_day (deficit_kwh : Q) (window_start window_end : string)
    (current_time days : Z) :
  RateCalc.calculate_charge_rate deficit_kwh window_start window_end
    (current_time + days * US_PER_DAY)
  = RateCalc.calculate_charge_rate deficit_kwh window_start window_end current_time.
Proof. apply rate_day_shift. Qed.

(** X18. For a fixed window and clock, a larger deficit never gives a
    smaller rate, and no rate is negative. *)
Theorem rate_monotone_in_deficit (d1 d2 : Q) (window_start window_end : string)
    (current_time : Z) :
  (d1 <= d2)%Q ->
  0 <= RateCalc.calculate_charge_rate d1 window_start window_end current_time
    <= RateCalc.calculate_charge_rate d2 window_start window_end current_time.
Proof.
  intros Hd. unfold RateCalc.calculate_charge_rate.
  destruct (strptime_HM window_start) as [[sh sm] |]; [| lia].
  destruct (strptime_HM window_end) as [[eh em] |]; [| lia].
  cbv zeta.
  repeat match goal with
         | |- context [let '(_, _) := (if ?c then _ else _) in _] => destruct c
         end;
    match goal with
    | |- context [if Qlt_le_dec ?r 1 then ?h else _] =>
        destruct (Qlt_le_dec r 1) as [Hshort | Hlong];
          [ destruct (Qle_bool h 0) eqn:Hrem; [lia |];
            assert (0 < h)%Q
              by (apply Qnot_le_lt; intros Hle; apply Qle_bool_iff in Hle;
                  congruence);
            split; [lia |];
            apply Z.max_le_compat_r, round_monotone;
            apply Qmult_le_compat_r;
              [lra | apply Qlt_le_weak, Qinv_lt_0_compat; assumption]
          | destruct (Qle_bool r 0) eqn:Hrem; [lia |];
            assert (0 < r)%Q by lra;
            split; [lia |];
            apply Z.max_le_compat_r, round_monotone;
            apply Qmult_le_compat_r;
              [lra | apply Qlt_le_weak, Qinv_lt_0_compat; assumption] ]
    end.
Qed.

(** Deficits of 3 and 12 kWh at 23:30 in the window 23:00 to 06:00. *)
Lemma rate_monotone_in_deficit_witness :
  0 <= RateCalc.calculate_charge_rate 3 "23:00" "06:00" (at_time d20240115 23 30)
    <= RateCalc.calculate_charge_rate 12 "23:00" "06:00" (at_time d20240115 23 30).
Proof.
  apply (rate_monotone_in_deficit 3 12). vm_compute. discriminate.
Defined.

(** X19. For window times written in ASCII, a start or end that is not an
    hour 0-23 and a minute 0-59 of one or two digits each, separated by a
    colon, gives a rate of 0 and a decision not to charge, whatever the
    deficit. *)
Theorem invalid_window_never_charges (args : config) (total_deficit_kwh : Q)
    (charge_rate0 current_time : Z) :
  ascii_only (cheap_power_window_start args) = true ->
  ascii_only (cheap_power_window_end args) = true ->
  strptime_HM (cheap_power_window_start args) = None
  \/ strptime_HM (cheap_power_window_end args) = None ->
  RateCalc.calculate_charge_rate total_deficit_kwh
    (cheap_power_window_start args) (cheap_power_window_end args) current_time
  = 0
  /\ snd (decision args total_deficit_kwh charge_rate0 current_time) = false.
Proof.
  intros _ _ Hbad. unfold decision, RateCalc.calculate_charge_rate.
  destruct (strptime_HM (cheap_power_window_start args)) as [[sh sm] |],
           (strptime_HM (cheap_power_window_end args)) as [[eh em] |];
    try (destruct Hbad; discriminate);
    (split; [reflexivity |]);
    destruct (Qlt_le_dec 0 total_deficit_kwh); reflexivity.
Qed.

(** A start time of 25:00. *)
Lemma invalid_window_never_charges_witness :
  RateCalc.calculate_charge_rate 3 "25:00" "06:00" (at_time d20240115 23 30) = 0
  /\ snd (decision bad_window_args 3 0 (at_time d20240115 23 30)) = false.
Proof.
  apply (invalid_window_never_charges bad_window_args 3 0 (at_time d20240115 23 30)).
  - reflexivity.
  - reflexivity.
  - left. reflexivity.
Defined.

(** ** Aggregation *)

Lemma fmap_NoDup_inj {A B : Type} (f : A -> B) (l : list A) (x y : A) :
  NoDup (f <$> l) -> x ∈ l -> y ∈ l -> f x = f y -> x = y.
Proof.
  induction l as [| a l IH]; intros Hnd Hx Hy Hf.
  - by apply elem_of_nil in Hx.
  - rewrite fmap_cons in Hnd. apply NoDup_cons in Hnd as [Ha Hnd].
    apply elem_of_cons in Hx as [-> | Hx]; apply elem_of_cons in Hy as [-> | Hy].
    + reflexivity.
    + exfalso. apply Ha. rewrite Hf. by apply list_elem_of_fmap_2.
    + exfalso. apply Ha. rewrite <- Hf. by apply list_elem_of_fmap_2.
    + by apply IH.
Qed.

(** X20. The aggregation of an entity does not depend on the order in
    which its readings arrive, as long as no two of them carry the same
    time: any rearrangement sorts to the same sequence and gives the same
    daily energies. *)
Theorem aggregation_order_independent (g1 g2 : list reading) :
  g1 ≡ₚ g2 ->
  NoDup (Time <$> g1) ->
  sort_values g1 = sort_values g2 /\ daily_energy g1 = daily_energy g2.
Proof.
  intros Hperm Hnd.
  assert (sort_values g1 = sort_values g2) as Hsort.
  { unfold sort_values.
    apply (StronglySorted_unique_strong time_le).
    - intros x1 x2 H1 H2 Hle Hge.
      rewrite merge_sort_Permutation in H1.
      rewrite merge_sort_Permutation, <- Hperm in H2.
      apply (fmap_NoDup_inj Time g1); [assumption .. |].
      unfold time_le in *. lia.
    - apply StronglySorted_merge_sort; apply _.
    - apply StronglySorted_merge_sort; apply _.
    - by rewrite !merge_sort_Permutation. }
  split; [exact Hsort |]. unfold daily_energy. by rewrite Hsort.
Qed.

(** The two readings of the overnight sample, in either order. *)
Lemma aggregation_order_independent_witness :
  daily_energy [early_reading; late_reading]
  = daily_energy [late_reading; early_reading].
Proof.
  apply (aggregation_order_independent [early_reading; late_reading]
           [late_reading; early_reading]).
  - apply perm_swap.
  - refine (bool_decide_unpack _ _). vm_compute. reflexivity.
Defined.

Lemma groupby_sum_dom (rows : list (Z * Q)) :
  dom (groupby_sum rows) = list_to_set (fst <$> rows).
Proof.
  induction rows as [| [d e] rows IH].
  - unfold groupby_sum. simpl. apply dom_empty_L.
  - unfold groupby_sum in *. simpl. rewrite dom_insert_L, IH. reflexivity.
Qed.

Lemma energy_rows_from_fst (prev : Z) (l : list reading) :
  fst <$> energy_rows_from prev l = Aggregator.Date <$> l.
Proof.
  revert prev. induction l as [| r l IH]; intros prev; simpl.
  - reflexivity.
  - by rewrite IH.
Qed.

Lemma energy_rows_fst (l : list reading) :
  fst <$> energy_rows l = Aggregator.Date <$> l.
Proof.
  destruct l as [| r l]; simpl; [reflexivity |].
  by rewrite energy_rows_from_fst.
Qed.

(** X21. The daily energy of a power entity has a bucket for exactly the
    dates on which the entity has a reading; an entity with a single
    reading gets a bucket of zero energy for that reading's date. *)
Theorem daily_energy_dates (group : list reading) :
  (forall d, d ∈ dom (daily_energy group)
             <-> exists r, r ∈ group /\ Aggregator.Date r = d)
  /\ (forall r, group = [r] ->
        (at_date (daily_energy group) (Aggregator.Date r) == 0)%Q).
Proof.
  split.
  - intros d. unfold daily_energy.
    rewrite groupby_sum_dom, energy_rows_fst, elem_of_list_to_set,
      list_elem_of_fmap.
    split; intros (r & H1 & H2); exists r.
    + split; [| done]. unfold sort_values in H2.
      by rewrite merge_sort_Permutation in H2.
    + split; [done |]. unfold sort_values.
      by rewrite merge_sort_Permutation.
  - intros r ->. unfold daily_energy.
    change (sort_values [r]) with [r].
    unfold energy_rows, energy_rows_from.
    rewrite at_date_groupby_cons.
    destruct (decide (Aggregator.Date r = Aggregator.Date r)); [| done].
    change (groupby_sum []) with (∅ : gmap Z Q). rewrite at_date_empty.
    unfold Qdiv. ring.
Qed.

Lemma Qmin_bounds (a b : Q) :
  (Aggregator.Qmin a b <= a)%Q /\ (Aggregator.Qmin a b <= b)%Q.
Proof. unfold Aggregator.Qmin. destruct (Qlt_le_dec b a); split; lra. Qed.

Lemma Qmax_bounds (a b : Q) :
  (a <= Aggregator.Qmax a b)%Q /\ (b <= Aggregator.Qmax a b)%Q.
Proof. unfold Aggregator.Qmax. destruct (Qlt_le_dec a b); split; lra. Qed.

Lemma daily_min_max_bounds (group : list reading) (r : reading) :
  r ∈ group ->
  exists lo hi,
    daily_min_max group !! Aggregator.Date r = Some (lo, hi)
    /\ (lo <= State r)%Q /\ (State r <= hi)%Q.
Proof.
  induction group as [| r0 group IH]; intros Hr.
  - by apply elem_of_nil in Hr.
  - unfold daily_min_max. simpl. fold (daily_min_max group).
    pose proof (Qmin_bounds (State r0)) as Hmin.
    pose proof (Qmax_bounds (State r0)) as Hmax.
    apply elem_of_cons in Hr as [-> | Hr].
    + destruct (daily_min_max group !! Aggregator.Date r0) as [[lo hi] |];
        rewrite lookup_insert_eq; do 2 eexists; (split; [reflexivity |]).
      * split; [apply Hmin | apply Hmax].
      * split; lra.
    + destruct (IH Hr) as (lo & hi & Hlook & Hlo & Hhi).
      destruct (decide (Aggregator.Date r0 = Aggregator.Date r)) as [Heq | Hne].
      * rewrite Heq, Hlook, lookup_insert_eq.
        do 2 eexists. split; [reflexivity |].
        destruct (Hmin lo), (Hmax hi). split; lra.
      * destruct (daily_min_max group !! Aggregator.Date r0) as [[lo0 hi0] |];
          rewrite lookup_insert_ne by done; eauto.
Qed.

(** X22. After a SOC entity's group is processed, the SOC statistics hold,
    for the date of each of its readings, a minimum and a maximum that
    enclose that reading. *)
Theorem soc_extrema_enclose_readings (entity : string) (group : list reading)
    (acc : aggregation) (r : reading) :
  group_sensor_type (sort_values group) = Some soc ->
  r ∈ group ->
  exists lo hi,
    soc_stats (process_group entity group acc) !! Aggregator.Date r = Some (lo, hi)
    /\ (lo <= State r)%Q /\ (State r <= hi)%Q.
Proof.
  intros Hkind Hr. unfold process_group. rewrite Hkind. simpl.
  assert (r ∈ sort_values group) as Hr'
    by (unfold sort_values; by rewrite merge_sort_Permutation).
  destruct (daily_min_max_bounds _ _ Hr') as (lo & hi & Hlook & Hb).
  exists lo, hi. split; [| exact Hb].
  by apply lookup_union_Some_l.
Qed.

(** The SOC readings of the sample history: 40 at noon lies between the
    day's extrema. *)
Lemma soc_extrema_enclose_readings_witness :
  exists lo hi,
    soc_stats (process_group (HA_battery_SOC_sensor sample_args) soc_readings start)
      !! (d20240115 - 1) = Some (lo, hi)
    /\ (lo <= 40)%Q /\ (40 <= hi)%Q.
Proof.
  apply (soc_extrema_enclose_readings (HA_battery_SOC_sensor sample_args)
           soc_readings start
           (sensor_row (HA_battery_SOC_sensor sample_args) soc 12 40)).
  - vm_compute. reflexivity.
  - apply list_elem_of_In. simpl. right. left. reflexivity.
Defined.

Lemma sorted_last_latest (l : list reading) (r : reading) :
  StronglySorted time_le l -> last l = Some r ->
  forall r', r' ∈ l -> Time r' <= Time r.
Proof.
  intros Hs Hlast r' Hr'.
  apply last_Some in Hlast as [l' ->].
  apply StronglySorted_app in Hs as (Hcross & _ & _).
  apply elem_of_app in Hr' as [Hr' | Hr'].
  - apply (Hcross r' r Hr'). apply list_elem_of_singleton. reflexivity.
  - apply list_elem_of_singleton in Hr'. subst. lia.
Qed.

(** X23. After a SOC entity's group is processed, the latest SOC is the
    value of one of its readings, and no reading of the group is later
    than that one. *)
Theorem latest_soc_is_latest_reading (entity : string) (group : list reading)
    (acc : aggregation) :
  group_sensor_type (sort_values group) = Some soc ->
  exists r,
    r ∈ group
    /\ latest_soc (process_group entity group acc) = Some (State r)
    /\ forall r', r' ∈ group -> Time r' <= Time r.
Proof.
  intros Hkind. unfold process_group. rewrite Hkind. simpl.
  destruct (last (sort_values group)) as [r |] eqn:Hlast.
  - exists r.
    assert (forall x, x ∈ sort_values group <-> x ∈ group) as Hmem
      by (intros x; unfold sort_values; by rewrite merge_sort_Permutation).
    split; [| split; [reflexivity |]].
    + apply Hmem. apply last_Some in Hlast as [l' Hl]. rewrite Hl.
      apply elem_of_app. right. apply list_elem_of_singleton. reflexivity.
    + intros r' Hr'. apply (sorted_last_latest (sort_values group)).
      * apply StronglySorted_merge_sort; apply _.
      * exact Hlast.
      * by apply Hmem.
  - apply last_None in Hlast. rewrite Hlast in Hkind. discriminate.
Qed.

(** The SOC readings of the sample history, the later one arriving
    first. *)
Lemma latest_soc_is_latest_reading_witness :
  exists r,
    r ∈ soc_readings
    /\ latest_soc (process_group (HA_battery_SOC_sensor sample_args) soc_readings start)
       = Some (State r)
    /\ forall r', r' ∈ soc_readings -> Time r' <= Time r.
Proof.
  apply (latest_soc_is_latest_reading (HA_battery_SOC_sensor sample_args)
           soc_readings start).
  vm_compute. reflexivity.
Defined.

Lemma total_seconds_nonneg (d : Z) : 0 <= d -> (0 <= total_seconds d)%Q.
Proof.
  intros Hd. unfold total_seconds, Qdiv.
  apply Qmult_le_0_compat.
  - unfold Qle. simpl. lia.
  - apply Qinv_le_0_compat. unfold US_PER_SECOND, Qle. simpl. lia.
Qed.

Lemma energy_rows_from_nonneg (prev : Z) (l : list reading) :
  StronglySorted time_le l ->
  Forall (fun r => prev <= Time r) l ->
  Forall (fun r => 0 <= State r)%Q l ->
  Forall (fun row => 0 <= snd row)%Q (energy_rows_from prev l).
Proof.
  revert prev. induction l as [| r l IH]; intros prev Hs Hprev Hpos; simpl.
  - constructor.
  - apply StronglySorted_cons in Hs as [Hr Hs].
    inversion Hprev; subst. inversion Hpos; subst.
    constructor.
    + simpl. unfold Qdiv. apply Qmult_le_0_compat.
      * apply Qmult_le_0_compat; [assumption |].
        apply total_seconds_nonneg. lia.
      * apply Qinv_le_0_compat. unfold Qle. simpl. lia.
    + apply IH; assumption.
Qed.

Lemma groupby_sum_nonneg (rows : list (Z * Q)) (d : Z) :
  Forall (fun row => 0 <= snd row)%Q rows ->
  (0 <= at_date (groupby_sum rows) d)%Q.
Proof.
  induction 1 as [| [d' e] rows He _ IH].
  - change (groupby_sum []) with (∅ : gmap Z Q). rewrite at_date_empty. lra.
  - rewrite at_date_groupby_cons. simpl in He.
    destruct (decide (d' = d)) as [-> | _]; lra.
Qed.

(** X24. When no reading of a power entity is negative, no daily energy of
    that entity is negative. *)
Theorem daily_energy_nonnegative (group : list reading) (d : Z) :
  Forall (fun r => 0 <= State r)%Q group ->
  (0 <= at_date (daily_energy group) d)%Q.
Proof.
  intros Hpos. unfold daily_energy. apply groupby_sum_nonneg.
  assert (StronglySorted time_le (sort_values group)) as Hs
    by (apply StronglySorted_merge_sort; apply _).
  assert (Forall (fun r => 0 <= State r)%Q (sort_values group)) as Hpos'.
  { apply Forall_forall. intros r Hr. unfold sort_values in Hr.
    rewrite merge_sort_Permutation in Hr.
    rewrite Forall_forall in Hpos. by apply Hpos. }
  destruct (sort_values group) as [| r l]; simpl; [constructor |].
  apply StronglySorted_cons in Hs as [Hr Hs]. inversion Hpos'; subst.
  constructor.
  - simpl. unfold Qdiv. rewrite Qmult_0_r. rewrite Qmult_0_l. lra.
  - apply energy_rows_from_nonneg; assumption.
Qed.

(** The overnight sample. *)
Lemma daily_energy_nonnegative_witness :
  (0 <= at_date (daily_energy overnight_gap) (d20240115 + 1))%Q.
Proof.
  apply (daily_energy_nonnegative overnight_gap (d20240115 + 1)).
  repeat constructor; vm_compute; discriminate.
Defined.

(** ** Forecast input *)

(** X25. The dates of the forecast input are exactly the dates present in
    the battery-charge series, the load series and the SOC statistics, in
    ascending order and without repetition. *)
Theorem forecast_dates_are_the_joined_dates (args : config) (agg : aggregation) :
  (forall d,
      d ∈ Forecaster.dates args agg
      <-> d ∈ dom (Forecaster.series agg (HA_battery_charge_rate_sensor args))
          /\ d ∈ dom (Forecaster.series agg (HA_power_usage_sensor args))
          /\ d ∈ dom (soc_stats agg))
  /\ Sorted Z.le (Forecaster.dates args agg)
  /\ NoDup (Forecaster.dates args agg)
  /\ map Forecaster.Date (Forecaster.forecast_data args agg)
     = Forecaster.dates args agg.
Proof.
  split; [| split; [| split]].
  - intros d. unfold Forecaster.dates.
    rewrite merge_sort_Permutation, elem_of_elements, !elem_of_intersection.
    tauto.
  - apply Sorted_merge_sort. apply _.
  - unfold Forecaster.dates. rewrite merge_sort_Permutation.
    apply NoDup_elements.
  - unfold Forecaster.forecast_data. rewrite map_map.
    rewrite <- (map_id (Forecaster.dates args agg)) at 2.
    apply map_ext. intros d. unfold Forecaster.row.
    destruct (default (0%Q, 0%Q) (soc_stats agg !! d)). reflexivity.
Qed.

(** ** Solar forecast *)

Lemma scaled_sum (system_size_kw : Q) (shortwave : list Q) :
  (LinearRegression.Qsum (map (fun sw => sw / 1000 * system_size_kw)%Q shortwave)
   == LinearRegression.Qsum shortwave / 1000 * system_size_kw)%Q.
Proof.
  induction shortwave as [| sw l IH]; simpl.
  - unfold Qdiv. ring.
  - rewrite IH. unfold Qdiv. ring.
Qed.

Lemma Qsum_nonneg (l : list Q) :
  Forall (fun x => 0 <= x)%Q l -> (0 <= LinearRegression.Qsum l)%Q.
Proof.
  induction 1 as [| x l Hx _ IH]; simpl; lra.
Qed.

(** X26. The solar total is the system size times the summed shortwave
    radiation over 1000, taken in full while the mean cloud cover is at
    most 80 (or there is no cloud cover series) and multiplied by 0.7 once
    it exceeds 80; for a non-negative size and radiation it is never
    negative and never above the undiminished total. *)
Theorem solar_total_derating (system_size_kw : Q) (shortwave cloud_cover : list Q) :
  let full := (LinearRegression.Qsum shortwave / 1000 * system_size_kw)%Q in
  let total := Solar.total_solar_kwh system_size_kw shortwave cloud_cover in
  ((Solar.average cloud_cover <= 80)%Q -> (total == full)%Q)
  /\ ((80 < Solar.average cloud_cover)%Q -> (total == (7 # 10) * full)%Q)
  /\ (cloud_cover = [] -> (total == full)%Q)
  /\ ((0 <= system_size_kw)%Q -> Forall (fun sw => 0 <= sw)%Q shortwave ->
      (0 <= total)%Q /\ (total <= full)%Q).
Proof.
  intros full total. subst full total.
  unfold Solar.total_solar_kwh, Solar.derating_factor.
  rewrite scaled_sum.
  split; [| split; [| split]].
  - intros Hle. destruct (Qlt_le_dec 80 (Solar.average cloud_cover)); [lra | ring].
  - intros Hgt. destruct (Qlt_le_dec 80 (Solar.average cloud_cover)); [ring | lra].
  - intros ->. simpl.
    destruct (Qlt_le_dec 80 0) as [H | _]; [| ring].
    exfalso. revert H. apply Qle_not_lt. unfold Qle. simpl. lia.
  - intros Hsize Hsw. apply Qsum_nonneg in Hsw.
    assert (0 <= LinearRegression.Qsum shortwave / 1000 * system_size_kw)%Q as Hfull.
    { apply Qmult_le_0_compat; [| assumption].
      unfold Qdiv. apply Qmult_le_0_compat; [assumption |].
      apply Qinv_le_0_compat. unfold Qle. simpl. lia. }
    destruct (Qlt_le_dec 80 (Solar.average cloud_cover)); split; lra.
Qed.

(** X27. A forecast fetched at some time is served again from the cache,
    unchanged and whatever the weather service now answers, by every call
    with caching on made less than the cache duration later; a call made
    later than that fetches anew. *)
Theorem solar_cache_round_trip (system_size_kw : Q) (cache_duration_minutes : Z)
    (fetched_at now written_at : Z) (removable : bool)
    (shortwave cloud_cover direct_normal diffuse : list Q)
    (later : Solar.response) (c : Solar.cache_file) :
  let first :=
    Solar.fetch system_size_kw
      (Solar.Hourly shortwave cloud_cover direct_normal diffuse) fetched_at c in
  let second :=
    Solar.get_solar_forecast_advanced system_size_kw true cache_duration_minutes
      now later written_at removable (snd first) in
  (now - fetched_at < cache_duration_minutes * 60 * US_PER_SECOND ->
   second = first)
  /\ (cache_duration_minutes * 60 * US_PER_SECOND <= now - fetched_at ->
      second = Solar.fetch system_size_kw later written_at (snd first)).
Proof.
  intros first second. subst first second.
  unfold Solar.get_solar_forecast_advanced. simpl.
  split; intros Hage.
  - apply Z.ltb_lt in Hage. rewrite Hage. reflexivity.
  - apply Z.ltb_ge in Hage. rewrite Hage. reflexivity.
Qed.

(** ** Cache of the sensor history *)

(** X28. Sensor data saved to the cache is returned by a look-up made less
    than twelve hours later and withheld by one made twelve hours later or
    more, and neither look-up changes the file. A save that fails before
    the file is opened leaves the look-up to the old file; a save that
    fails once the file is opened leaves nothing to serve: the look-up
    returns no data and removes the file when it can. *)
Theorem ha_cache_round_trip {A : Type} (saved_at now : Z) (removable : bool)
    (data : A) (f : HACache.cache_file A) :
  (now - saved_at < HACache.HA_CACHE_DURATION ->
   HACache.get_cached_ha_data now removable
     (HACache.save_ha_data_cache saved_at HACache.Written data f)
   = (Some data, HACache.Pickled (Some saved_at) (Some data)))
  /\ (HACache.HA_CACHE_DURATION <= now - saved_at ->
      HACache.get_cached_ha_data now removable
        (HACache.save_ha_data_cache saved_at HACache.Written data f)
      = (None, HACache.Pickled (Some saved_at) (Some data)))
  /\ HACache.get_cached_ha_data now removable
       (HACache.save_ha_data_cache saved_at HACache.OpenFails data f)
     = HACache.get_cached_ha_data now removable f
  /\ HACache.get_cached_ha_data now removable
       (HACache.save_ha_data_cache saved_at HACache.FailsAfterOpen data f)
     = (None, if removable then HACache.NoFile else HACache.Corrupt).
Proof.
  unfold HACache.get_cached_ha_data, HACache.save_ha_data_cache.
  split; [| split; [| split]];
    [intros Hage | intros Hage | reflexivity | reflexivity].
  - apply Z.ltb_lt in Hage. rewrite Hage. reflexivity.
  - apply Z.ltb_ge in Hage. rewrite Hage. reflexivity.
Qed.

(** ** MQTT discovery *)

Lemma publish_all_spec (broker : string -> Discovery.publish_result)
    (l : list Discovery.sensor) :
  snd (Discovery.publish_all broker l) = Discovery.discovery_topic <$> l
  /\ (fst (Discovery.publish_all broker l) <= length l)%nat
  /\ (fst (Discovery.publish_all broker l) = length l
      <-> forall s, s ∈ l -> broker (Discovery.discovery_topic s) = Discovery.Rc 0).
Proof.
  induction l as [| s l (IHt & IHle & IHall)]; simpl.
  - repeat split; try lia. intros _ s Hs. by apply elem_of_nil in Hs.
  - destruct (Discovery.publish_all broker l) as [n topics]. simpl in *.
    destruct (broker (Discovery.discovery_topic s)) as [[| c | c] |] eqn:Eb;
      simpl; (split; [by rewrite IHt |]); (split; [lia |]).
    + split.
      * intros Hn s' Hs'. apply elem_of_cons in Hs' as [-> | Hs']; [exact Eb |].
        apply IHall; [lia | exact Hs'].
      * intros Hall. f_equal. apply IHall. intros s' Hs'. apply Hall.
        apply elem_of_cons. by right.
    + split; [lia |]. intros Hall.
      specialize (Hall s ltac:(apply elem_of_cons; by left)). congruence.
    + split; [lia |]. intros Hall.
      specialize (Hall s ltac:(apply elem_of_cons; by left)). congruence.
    + split; [lia |]. intros Hall.
      specialize (Hall s ltac:(apply elem_of_cons; by left)). congruence.
Qed.

(** X29. [publish_mqtt_discovery] publishes the configuration of every
    sensor, in order, whether or not earlier ones failed, and returns True
    exactly when the broker accepted every one of them with result code
    0. *)
Theorem discovery_publishes_all_and_reports (broker : string -> Discovery.publish_result) :
  snd (Discovery.publish_all broker Discovery.sensors)
  = Discovery.discovery_topic <$> Discovery.sensors
  /\ (Discovery.publish_mqtt_discovery broker = true
      <-> forall s, s ∈ Discovery.sensors ->
                    broker (Discovery.discovery_topic s) = Discovery.Rc 0).
Proof.
  destruct (publish_all_spec broker Discovery.sensors) as (Ht & _ & Hall).
  split; [exact Ht |].
  unfold Discovery.publish_mqtt_discovery. rewrite Nat.eqb_eq. exact Hall.
Qed.

Lemma retry_spec (connect : nat -> option (string -> Discovery.publish_result))
    (remaining attempt : nat) :
  let '(code, attempts, pauses) := Discovery.retry connect attempt remaining in
  (code = 0 <->
   exists k, (attempt <= k < attempt + remaining)%nat
             /\ attempt_succeeds (connect k) = true)
  /\ (code = 0 \/ code = 1)
  /\ (attempts <= remaining)%nat
  /\ pauses = pred attempts
  /\ (forall k, (attempt <= k < attempt + pred attempts)%nat ->
                attempt_succeeds (connect k) = false)
  /\ (code = 1 -> attempts = remaining)
  /\ (0 < remaining -> 0 < attempts)%nat
  /\ (code = 0 ->
      (0 < attempts)%nat
      /\ attempt_succeeds (connect (attempt + pred attempts)%nat) = true).
Proof.
  revert attempt. induction remaining as [| n IH]; intros attempt; simpl.
  - split; [| split; [| split; [| split; [| split; [| split; [| split]]]]]].
    + split; [lia | intros (k & Hk & _); lia].
    + by right.
    + lia.
    + reflexivity.
    + intros k Hk. lia.
    + reflexivity.
    + lia.
    + lia.
  - fold (attempt_succeeds (connect attempt)).
    destruct (attempt_succeeds (connect attempt)) eqn:Es.
    + split; [| split; [| split; [| split; [| split; [| split; [| split]]]]]].
      * split; [| reflexivity]. intros _. exists attempt. split; [lia | exact Es].
      * by left.
      * lia.
      * reflexivity.
      * intros k Hk. simpl in Hk. lia.
      * lia.
      * lia.
      * intros _. split; [lia |]. simpl. by rewrite Nat.add_0_r.
    + specialize (IH (S attempt)).
      destruct (Discovery.retry connect (S attempt) n) as [[code attempts] pauses].
      destruct IH as (Hcode & Hbit & Hle & Hp & Hfirst & Hall & Hsome & Hlast).
      split; [| split; [| split; [| split; [| split; [| split; [| split]]]]]].
      * rewrite Hcode. split; intros (k & Hk & Hs).
        -- exists k. split; [lia | exact Hs].
        -- exists k. split; [| exact Hs].
           destruct (Nat.eq_dec k attempt) as [-> | Hne]; [congruence | lia].
      * exact Hbit.
      * lia.
      * destruct n; simpl.
        -- assert (attempts = 0%nat) by lia. subst. reflexivity.
        -- assert (0 < attempts)%nat by (apply Hsome; lia). lia.
      * intros k Hk. simpl in Hk.
        destruct (Nat.eq_dec k attempt) as [-> | Hne]; [exact Es |].
        apply Hfirst. lia.
      * intros Hone. f_equal. by apply Hall.
      * lia.
      * intros Hzero. destruct (Hlast Hzero) as [Hpos Hs].
        split; [lia |]. simpl.
        replace (attempt + attempts)%nat with (S attempt + pred attempts)%nat
          by lia.
        exact Hs.
Qed.

(** X30. The discovery tool exits with status 0 exactly when one of its
    first [retry_attempts] attempts connects and publishes every sensor; it
    stops at the first such attempt, which is then the last one it makes,
    pauses once between any two attempts and never after the last, and
    makes every attempt when none succeeds. *)
Theorem discovery_retries_until_success (retry_attempts : Z)
    (connect : nat -> option (string -> Discovery.publish_result)) :
  let '(code, attempts, pauses) := Discovery.main retry_attempts connect in
  (code = 0 <->
   exists k, (k < Z.to_nat retry_attempts)%nat
             /\ attempt_succeeds (connect k) = true)
  /\ (code = 0 \/ code = 1)
  /\ (attempts <= Z.to_nat retry_attempts)%nat
  /\ pauses = pred attempts
  /\ (forall k, (k < pred attempts)%nat -> attempt_succeeds (connect k) = false)
  /\ (code = 1 -> attempts = Z.to_nat retry_attempts)
  /\ (code = 0 ->
      (0 < attempts)%nat /\ attempt_succeeds (connect (pred attempts)) = true).
Proof.
  unfold Discovery.main.
  pose proof (retry_spec connect (Z.to_nat retry_attempts) 0) as H.
  destruct (Discovery.retry connect 0 (Z.to_nat retry_attempts))
    as [[code attempts] pauses].
  destruct H as (Hcode & Hbit & Hle & Hp & Hfirst & Hall & _ & Hlast).
  split; [| split; [| split; [| split; [| split; [| split]]]]].
  - split.
    + intros Hc. apply Hcode in Hc as (k & Hk & Hs). exists k. split; [lia | done].
    + intros (k & Hk & Hs). apply Hcode. exists k. split; [lia | done].
  - exact Hbit.
  - exact Hle.
  - exact Hp.
  - intros k Hk. apply Hfirst. lia.
  - exact Hall.
  - intros Hzero. destruct (Hlast Hzero) as [Hpos Hs]. split; [exact Hpos |].
    simpl in Hs. exact Hs.
Qed.

Example discovery_third_attempt :
  Discovery.main 3 up_at_third = (0, 3%nat, 2%nat)
  /\ Discovery.main 2 up_at_third = (1, 2%nat, 1%nat)
  /\ Discovery.main 0 up_at_third = (1, 0%nat, 0%nat).
Proof. repeat split; vm_compute; reflexivity. Qed.
